(** * homework.py: a Telegram bot polling the homework-review API

    Shallow embedding of [homework.py] and the properties of its
    configuration check, API client, response validator, status translator
    and poll loop.

    The Python objects the program handles are the values decoded from JSON,
    the exceptions it raises and catches, and two process-lifetime locals of
    [main] (the poll cursor [timestamp] and the last-error marker
    [error_message]).  Calls that leave the process ([requests.get],
    [bot.send_message], [time.time], [time.sleep]) are answered by a
    [world] that scripts their outcomes; everything they do that the program
    can observe is logged in the state. *)

From Stdlib Require Import ZArith String Ascii List Bool Lia.
From stdpp Require Import base option list strings pretty gmap.

Local Open Scope string_scope.
Local Open Scope Z_scope.

#[local] Set Warnings "-register-all".

(** ** Python objects *)

Module Py.

(** Objects produced by [response.json()], plus the few literals of the
    program.  A [float] is carried by its [repr], the only thing the program
    could ever do with it; a [dict] keeps insertion order, which [repr]
    shows. *)
Inductive value : Type :=
| VNone
| VBool (b : bool)
| VInt (n : Z)
| VFloat (r : string)
| VStr (s : string)
| VList (l : list value)
| VDict (d : list (string * value)).

(** Modelled from the spec: the module [exceptions] of the repository, from
    which [homework.py] imports [CantSendMessageError] and
    [NoHomeworkDetectedError], is not among the sources.  The spec knows both
    as error kinds that carry a description; they are taken as classes
    deriving directly from [Exception] and overriding none of its methods. *)
Inductive homework_error : Type :=
| CantSendMessageError
| NoHomeworkDetectedError.

(** The exception classes that occur: built-in ones, those of [requests]
    and [telegram], and the program's own.  All derive from [Exception]. *)
Inductive exn_class : Type :=
| KeyError
| TypeError
| IndexError
| ValueError
| AttributeError
| UnboundLocalError
| RequestException
| RequestsConnectionError
| RequestsTimeout
| HTTPError
| TelegramError
| NetworkError
| InvalidToken
| Custom (c : homework_error).

Coercion Custom : homework_error >-> exn_class.

#[global] Instance homework_error_eq_dec : EqDecision homework_error.
Proof. solve_decision. Defined.

#[global] Instance exn_class_eq_dec : EqDecision exn_class.
Proof. solve_decision. Defined.

(** [issubclass c base] for the bases named in the [except] clauses of the
    program: [requests.exceptions.RequestException],
    [telegram.error.TelegramError], [KeyError] and [Exception]. *)
Definition parent (c : exn_class) : option exn_class :=
  match c with
  | RequestsConnectionError | RequestsTimeout | HTTPError => Some RequestException
  | NetworkError | InvalidToken => Some TelegramError
  | UnboundLocalError | KeyError | TypeError | IndexError | ValueError
  | AttributeError | RequestException | TelegramError | Custom _ => None
  end.

Definition issubclass (c base : exn_class) : bool :=
  bool_decide (c = base) || bool_decide (parent c = Some base).

(** [except Exception] catches every class above. *)
Definition is_Exception (_ : exn_class) : bool := true.

(** An exception object: its identity (the address [id(e)] would show), its
    class and its [args] tuple. *)
Record exn : Type := Exn {
  exn_id : nat;
  exn_class_of : exn_class;
  exn_args : list value;
}.

(** What a variable such as [error_message] may hold: a plain value or an
    exception object. *)
Inductive pyobj : Type :=
| OVal (v : value)
| OExn (e : exn).

(** *** Text of objects: [str], [repr] and f-string fields *)

Definition squote : string := "'".
Definition dquote : string := String (ascii_of_nat 34) EmptyString.
Definition backslash : string := "\".

Definition hex_digit (n : nat) : string :=
  String (ascii_of_nat (if (n <? 10)%nat then 48 + n else 87 + n)) EmptyString.

Fixpoint contains_char (c : ascii) (s : string) : bool :=
  match s with
  | EmptyString => false
  | String c' r => bool_decide (c = c') || contains_char c r
  end.

(** Characters of a [str] held as UTF-8: a byte in 128..191 continues the
    character begun before it. *)
Definition is_continuation (c : ascii) : bool :=
  let n := nat_of_ascii c in (128 <=? n)%nat && (n <? 192)%nat.

Fixpoint utf8_chars (s : string) : list string :=
  match s with
  | EmptyString => []
  | String c r =>
      let continued :=
        match r with
        | String c' _ => is_continuation c'
        | EmptyString => false
        end in
      match utf8_chars r with
      | h :: t =>
          if continued then String c h :: t else String c EmptyString :: h :: t
      | [] => [String c EmptyString]
      end
  end.

(** The code point of one character, from its UTF-8 bytes. *)
Definition utf8_code (c : string) : N :=
  let payload (bits : N) (b : ascii) := (N_of_ascii b mod bits)%N in
  match c with
  | String b0 EmptyString => N_of_ascii b0
  | String b0 (String b1 EmptyString) =>
      (payload 32 b0 * 64 + payload 64 b1)%N
  | String b0 (String b1 (String b2 EmptyString)) =>
      (payload 16 b0 * 4096 + payload 64 b1 * 64 + payload 64 b2)%N
  | String b0 (String b1 (String b2 (String b3 _))) =>
      (payload 8 b0 * 262144 + payload 64 b1 * 4096 + payload 64 b2 * 64
       + payload 64 b3)%N
  | EmptyString => 0%N
  end.

(** Code points above U+007F that [repr] escapes: the control, format,
    separator, surrogate, private-use and non-character code points.  Code
    points that the Unicode version of the interpreter leaves unassigned are
    escaped by CPython too; that set changes from version to version and is
    not listed here, so such a code point is copied. *)
Definition escaped_ranges : list (N * N) :=
  [(0x80, 0xA0); (0xAD, 0xAD); (0x600, 0x605); (0x61C, 0x61C); (0x6DD, 0x6DD);
   (0x70F, 0x70F); (0x890, 0x891); (0x8E2, 0x8E2); (0x1680, 0x1680);
   (0x180E, 0x180E); (0x2000, 0x200F); (0x2028, 0x202F); (0x205F, 0x206F);
   (0x3000, 0x3000); (0xD800, 0xF8FF); (0xFDD0, 0xFDEF); (0xFEFF, 0xFEFF);
   (0xFFF9, 0xFFFB); (0x110BD, 0x110BD); (0x110CD, 0x110CD);
   (0x13430, 0x1343F); (0x1BCA0, 0x1BCA3); (0x1D173, 0x1D17A);
   (0xE0001, 0xE0001); (0xE0020, 0xE007F); (0xF0000, 0x10FFFF)]%N.

Definition is_escaped (n : N) : bool :=
  existsb (fun r => (fst r <=? n)%N && (n <=? snd r)%N) escaped_ranges
  || (0xFFFE <=? n mod 0x10000)%N.

(** [width] lower-case hexadecimal digits of [n]. *)
Fixpoint hex (width : nat) (n : N) : string :=
  match width with
  | O => EmptyString
  | S w => hex w (n / 16)%N +:+ hex_digit (N.to_nat (n mod 16)%N)
  end.

(** [repr] of one character inside quotes [q]: the quote and the backslash
    get a backslash, tab, newline and carriage return their letter, other
    control characters and the code points of [escaped_ranges] a hexadecimal
    escape, and every other character is copied (all Cyrillic letters among
    them). *)
Definition repr_char (q : ascii) (c : string) : string :=
  match c with
  | String b EmptyString =>
      let n := nat_of_ascii b in
      if bool_decide (b = q) || bool_decide (n = 92%nat)
      then backslash +:+ String b EmptyString
      else if bool_decide (n = 9%nat) then backslash +:+ "t"
      else if bool_decide (n = 10%nat) then backslash +:+ "n"
      else if bool_decide (n = 13%nat) then backslash +:+ "r"
      else if (n <? 32)%nat || (127 <=? n)%nat
           then backslash +:+ "x" +:+ hex 2 (N.of_nat n)
      else c
  | _ =>
      let n := utf8_code c in
      if is_escaped n then
        if (n <? 0x100)%N then backslash +:+ "x" +:+ hex 2 n
        else if (n <? 0x10000)%N then backslash +:+ "u" +:+ hex 4 n
        else backslash +:+ "U" +:+ hex 8 n
      else c
  end.

(** The body of [repr] of a [str] quoted with [q].  A [string] here is the
    UTF-8 text of the Python [str]. *)
Definition repr_body (q : ascii) (s : string) : string :=
  String.concat EmptyString (List.map (repr_char q) (utf8_chars s)).

Definition repr_str (s : string) : string :=
  let sq := ascii_of_nat 39 in
  let dq := ascii_of_nat 34 in
  let q := if contains_char sq s && negb (contains_char dq s) then dq else sq in
  String q EmptyString +:+ repr_body q s +:+ String q EmptyString.

Definition join (sep : string) (l : list string) : string := String.concat sep l.

Fixpoint repr (v : value) : string :=
  match v with
  | VNone => "None"
  | VBool true => "True"
  | VBool false => "False"
  | VInt n => pretty n
  | VFloat r => r
  | VStr s => repr_str s
  | VList l => "[" +:+ join ", " (List.map repr l) +:+ "]"
  | VDict d =>
      "{" +:+ join ", " (List.map (fun kv => repr_str (fst kv) +:+ ": " +:+ repr (snd kv)) d) +:+ "}"
  end.

(** [str(v)], which is also what an f-string field [{v}] inserts. *)
Definition str (v : value) : string :=
  match v with
  | VStr s => s
  | _ => repr v
  end.

Definition repr_tuple (args : list value) : string :=
  match args with
  | [a] => "(" +:+ repr a +:+ ",)"
  | _ => "(" +:+ join ", " (List.map repr args) +:+ ")"
  end.

(** Classes deriving from [OSError] ([RequestException] is an [IOError]). *)
Definition is_OSError (c : exn_class) : bool :=
  issubclass c RequestException.

Definition is_None (v : value) : bool :=
  match v with
  | VNone => true
  | _ => false
  end.

(** [OSError.__str__] for two to five arguments, read as [errno],
    [strerror], [filename], [winerror] and [filename2]: the file names are
    shown when they are not [None].  Other argument counts are left to
    [BaseException.__str__]. *)
Definition oserror_str (args : list value) : option string :=
  match args with
  | a :: b :: rest =>
      let head := "[Errno " +:+ str a +:+ "] " +:+ str b in
      match rest with
      | [] => Some head
      | [f] | [f; _] =>
          Some (if is_None f then head else head +:+ ": " +:+ repr f)
      | [f; _; f2] =>
          Some (if is_None f then head
                else if is_None f2 then head +:+ ": " +:+ repr f
                else head +:+ ": " +:+ repr f +:+ " -> " +:+ repr f2)
      | _ => None
      end
  | _ => None
  end.

(** [str(e)] of an exception: [BaseException.__str__], with the overrides of
    [KeyError] and [OSError]. *)
Definition exn_str (e : exn) : string :=
  match exn_args e with
  | [] => EmptyString
  | [a] => if bool_decide (exn_class_of e = KeyError) then repr a else str a
  | args =>
      if is_OSError (exn_class_of e)
      then match oserror_str args with
           | Some text => text
           | None => repr_tuple args
           end
      else repr_tuple args
  end.

(** *** Operators *)

(** [a is b]: exception objects are the same object when they have the same
    identity; a [str] is never an exception object. *)
Definition py_is (a b : pyobj) : bool :=
  match a, b with
  | OExn e1, OExn e2 => bool_decide (exn_id e1 = exn_id e2)
  | _, _ => false
  end.

(** [error != other] with an exception on the left: no class above defines
    [__eq__] or [__ne__], so the comparison falls back to object identity. *)
Definition exn_ne (error : exn) (other : pyobj) : bool :=
  negb (py_is (OExn error) other).

(** Truth value of an object, as tested by [if] and [all]. *)
Definition truthy (v : value) : bool :=
  match v with
  | VNone => false
  | VBool b => b
  | VInt n => negb (n =? 0)
  | VFloat r => negb (bool_decide (r = "0.0") || bool_decide (r = "-0.0"))
  | VStr s => negb (bool_decide (s = EmptyString))
  | VList l => negb (bool_decide (l = []))
  | VDict d => negb (bool_decide (d = []))
  end.

(** *** Subscripts *)

Definition type_name (v : value) : string :=
  match v with
  | VNone => "NoneType"
  | VBool _ => "bool"
  | VInt _ => "int"
  | VFloat _ => "float"
  | VStr _ => "str"
  | VList _ => "list"
  | VDict _ => "dict"
  end.

(** Lists and dicts are the unhashable objects among the values. *)
Definition hashable (v : value) : bool :=
  match v with
  | VList _ | VDict _ => false
  | _ => true
  end.

(** Lookup in a [dict] with [str] keys. *)
Fixpoint dict_lookup {A : Type} (d : list (string * A)) (k : string) : option A :=
  match d with
  | [] => None
  | (k', x) :: r => if bool_decide (k' = k) then Some x else dict_lookup r k
  end.

(** [d.get(k)] *)
Definition dict_get (d : list (string * value)) (k : string) : value :=
  match dict_lookup d k with
  | Some x => x
  | None => VNone
  end.

Definition isinstance_list (v : value) : bool :=
  match v with
  | VList _ => true
  | _ => false
  end.

End Py.

Export Py.

(** ** Effects: exceptions over a state *)

(** A [requests] call: what the program hands to [requests.get]. *)
Record request : Type := Request {
  rq_url : string;
  rq_headers : list (string * string);
  rq_params : list (string * value);
}.

(** Outcome of a call that leaves the process: it returns, or it raises an
    exception of some class with some [args]. *)
Inductive outcome (A : Type) : Type :=
| Returns (a : A)
| Raises (c : exn_class) (args : list value).
Arguments Returns {A} a.
Arguments Raises {A} c args.

(** A [requests.Response], as far as the program looks at it. *)
Record response : Type := Response {
  status_code : Z;
  url : string;
  reason : string;
  json : outcome value;
}.

(** The surroundings of the process: the environment after [load_dotenv()],
    the clock at start, and the outcomes of the successive calls of
    [requests.get], [bot.send_message] and of [telegram.Bot(...)]. *)
Record world : Type := World {
  w_environ : gmap string string;
  w_time : Z;
  w_get : nat -> outcome response;
  w_send : nat -> outcome unit;
  w_bot : outcome unit;
}.

(** One attempt of [bot.send_message]: destination, text, and whether the
    call returned. *)
Record delivery : Type := Delivery {
  dl_chat : value;
  dl_text : string;
  dl_ok : bool;
}.

(** The state: the next fresh object identity, the log of what left the
    process, and the two locals of [main] that live across iterations. *)
Record state : Type := State {
  st_next_id : nat;
  st_requests : list request;
  st_outbox : list delivery;
  st_slept : Z;
  timestamp : value;
  error_message : pyobj;
}.

Definition alloc (s : state) : state :=
  State (S (st_next_id s)) (st_requests s) (st_outbox s) (st_slept s)
        (timestamp s) (error_message s).
Definition log_request (rq : request) (s : state) : state :=
  State (st_next_id s) (st_requests s ++ [rq]) (st_outbox s) (st_slept s)
        (timestamp s) (error_message s).
Definition log_delivery (d : delivery) (s : state) : state :=
  State (st_next_id s) (st_requests s) (st_outbox s ++ [d]) (st_slept s)
        (timestamp s) (error_message s).
Definition add_sleep (n : Z) (s : state) : state :=
  State (st_next_id s) (st_requests s) (st_outbox s) (st_slept s + n)
        (timestamp s) (error_message s).
Definition set_timestamp (v : value) (s : state) : state :=
  State (st_next_id s) (st_requests s) (st_outbox s) (st_slept s)
        v (error_message s).
Definition set_error_message (o : pyobj) (s : state) : state :=
  State (st_next_id s) (st_requests s) (st_outbox s) (st_slept s)
        (timestamp s) o.

Inductive result (A : Type) : Type :=
| Ok (a : A)
| Raise (e : exn).
Arguments Ok {A} a.
Arguments Raise {A} e.

Definition M (A : Type) : Type := state -> result A * state.

#[global] Instance M_ret : MRet M := fun A a s => (Ok a, s).
#[global] Instance M_bind : MBind M := fun A B f m s =>
  match m s with
  | (Ok a, s') => f a s'
  | (Raise e, s') => (Raise e, s')
  end.

(** [raise C(args)]: a new exception object. *)
Definition raise {A : Type} (c : exn_class) (args : list value) : M A :=
  fun s => (Raise (Exn (st_next_id s) c args), alloc s).

(** [try: m / except C: h], with [catches] deciding [issubclass(_, C)]. *)
Definition try_except {A : Type} (m : M A) (catches : exn_class -> bool)
    (h : exn -> M A) : M A :=
  fun s =>
    match m s with
    | (Raise e, s') => if catches (exn_class_of e) then h e s' else (Raise e, s')
    | r => r
    end.

(** [try: m / finally: f]: [f] runs either way; what [m] did stands unless
    [f] raises. *)
Definition try_finally {A : Type} (m : M A) (f : M unit) : M A :=
  fun s =>
    let (r, s') := m s in
    match f s' with
    | (Ok _, s'') => (r, s'')
    | (Raise e, s'') => (Raise e, s'')
    end.

Definition modify (f : state -> state) : M unit := fun s => (Ok tt, f s).
Definition get_state : M state := fun s => (Ok s, s).

(** Reading a local variable: unbound locals raise [UnboundLocalError]
    (message text of CPython up to 3.10). *)
Definition load_local {A : Type} (name : string) (slot : option A) : M A :=
  match slot with
  | Some a => mret a
  | None =>
      raise UnboundLocalError
        [VStr ("local variable '" +:+ name +:+ "' referenced before assignment")]
  end.

(** [o[k]] with a [str] key. *)
Definition subscript_str (o : value) (k : string) : M value :=
  match o with
  | VDict d =>
      match dict_lookup d k with
      | Some x => mret x
      | None => raise KeyError [VStr k]
      end
  | VList _ => raise TypeError [VStr "list indices must be integers or slices, not str"]
  | VStr _ => raise TypeError [VStr "string indices must be integers"]
  | _ => raise TypeError [VStr ("'" +:+ type_name o +:+ "' object is not subscriptable")]
  end.

(** Position of index [i] in a sequence of [n] items, counting from the end
    when negative. *)
Definition seq_index (n : nat) (i : Z) : option nat :=
  let j := if i <? 0 then i + Z.of_nat n else i in
  if (0 <=? j) && (j <? Z.of_nat n) then Some (Z.to_nat j) else None.

(** [o[i]] with an [int] index. *)
Definition subscript_int (o : value) (i : Z) : M value :=
  match o with
  | VList l =>
      match seq_index (length l) i ≫= (fun j => l !! j) with
      | Some x => mret x
      | None => raise IndexError [VStr "list index out of range"]
      end
  | VStr s =>
      match seq_index (length (utf8_chars s)) i ≫= (fun j => utf8_chars s !! j) with
      | Some c => mret (VStr c)
      | None => raise IndexError [VStr "string index out of range"]
      end
  | VDict _ => raise KeyError [VInt i]
  | _ => raise TypeError [VStr ("'" +:+ type_name o +:+ "' object is not subscriptable")]
  end.

(** ** The program *)

Section Homework.

Variable w : world.

(** [os.getenv(name)]: the value, or [None]. *)
Definition os_getenv (name : string) : value :=
  match w_environ w !! name with
  | Some s => VStr s
  | None => VNone
  end.

Definition PRACTICUM_TOKEN : value := os_getenv "PRACTICUM_TOKEN".
Definition TELEGRAM_TOKEN : value := os_getenv "TELEGRAM_TOKEN".
Definition TELEGRAM_CHAT_ID : value := os_getenv "TELEGRAM_CHAT_ID".

Definition RETRY_PERIOD : Z := 600.
Definition ENDPOINT : string :=
  "https://practicum.yandex.ru/api/user_api/homework_statuses/".
Definition HEADERS : list (string * string) :=
  [("Authorization", "OAuth " +:+ str PRACTICUM_TOKEN)].

Definition HOMEWORK_VERDICTS : list (string * string) :=
  [("approved", "Работа проверена: ревьюеру всё понравилось. Ура!");
   ("reviewing", "Работа взята на проверку ревьюером.");
   ("rejected", "Работа проверена: у ревьюера есть замечания.")].

(** The module namespace [globals()], as far as [check_tokens] reads it: the
    three assignments at the top of the module always bind the three names. *)
Definition globals : gmap string value :=
  <["TELEGRAM_CHAT_ID" := TELEGRAM_CHAT_ID]>
    (<["TELEGRAM_TOKEN" := TELEGRAM_TOKEN]>
      (<["PRACTICUM_TOKEN" := PRACTICUM_TOKEN]> ∅)).

Definition TOKEN_NAMES : list string :=
  ["PRACTICUM_TOKEN"; "TELEGRAM_TOKEN"; "TELEGRAM_CHAT_ID"].

(** [token not in globals() or globals().get(token) is None] *)
Definition token_missing (g : gmap string value) (token : string) : bool :=
  negb (bool_decide (is_Some (g !! token))) || is_None (default VNone (g !! token)).

Definition missing_tokens (g : gmap string value) : list string :=
  List.filter (token_missing g) TOKEN_NAMES.

Definition check_tokens_in (g : gmap string value) : M unit :=
  let missing := missing_tokens g in
  if negb (bool_decide (missing = []))
  then raise KeyError
         [VStr ("Не заданы следующие токены - " +:+ join " " missing +:+ ",")]
  else mret tt.

Definition check_tokens : M unit := check_tokens_in globals.

(** The [telegram.Bot] client, known by its token. *)
Record Bot : Type := MkBot { bot_token : value }.

Definition telegram_Bot (token : value) : M Bot :=
  match w_bot w with
  | Returns _ => mret (MkBot token)
  | Raises c args => raise c args
  end.

(** [bot.send_message(chat_id, text=text)]: the next scripted outcome; the
    attempt is logged either way. *)
Definition bot_send_message (bot : Bot) (chat_id : value) (text : string) : M unit :=
  fun s =>
    match w_send w (length (st_outbox s)) with
    | Returns _ => (Ok tt, log_delivery (Delivery chat_id text true) s)
    | Raises c args => raise c args (log_delivery (Delivery chat_id text false) s)
    end.

Definition send_message (bot : Bot) (text : string) : M unit :=
  try_except
    (bot_send_message bot TELEGRAM_CHAT_ID text)
    (fun c => issubclass c TelegramError)
    (fun _ =>
       raise CantSendMessageError [VStr "Невозможно отправить сообщение в Telegram"]).

(** [requests.get(url=..., headers=..., params=...)] *)
Definition requests_get (rq : request) : M response :=
  fun s =>
    match w_get w (length (st_requests s)) with
    | Returns r => (Ok r, log_request rq s)
    | Raises c args => raise c args (log_request rq s)
    end.

(** [response.raise_for_status()] of [requests]. *)
Definition raise_for_status (r : response) : M unit :=
  let line kind :=
    pretty (status_code r) +:+ " " +:+ kind +:+ " Error: " +:+ reason r
      +:+ " for url: " +:+ url r in
  if (400 <=? status_code r) && (status_code r <? 500)
  then raise HTTPError [VStr (line "Client")]
  else if (500 <=? status_code r) && (status_code r <? 600)
  then raise HTTPError [VStr (line "Server")]
  else mret tt.

(** [response.json()] *)
Definition response_json (r : response) : M value :=
  match json r with
  | Returns v => mret v
  | Raises c args => raise c args
  end.

Definition HTTPStatus_OK : Z := 200.

Definition get_api_answer (timestamp : value) : M value :=
  (* the local [response] is bound by the assignment in the [try] block *)
  let unbound : option response := None in
  response ← try_except
    (requests_get (Request ENDPOINT HEADERS [("from_date", timestamp)]))
    (fun c => issubclass c RequestException)
    (fun _ =>
       response ← load_local "response" unbound;
       raise RequestException
         [VStr "Ошибка при запросе к API: %s"; VInt (status_code response)]);
  (if negb (status_code response =? HTTPStatus_OK)
   then raise_for_status response
   else mret tt);;
  response_json response.

Definition check_response (response : value) : M value :=
  match response with
  | VDict d =>
      if forallb (fun key => truthy (VStr key)) ["current_date"; "homeworks"]
         && isinstance_list (dict_get d "homeworks")
      then subscript_str response "homeworks"
      else raise TypeError [VStr "Структура данных не соответствует ожиданиям"]
  | _ => raise TypeError [VStr "Структура данных не соответствует ожиданиям"]
  end.

(** [HOMEWORK_VERDICTS[status]] *)
Definition verdict_of (status : value) : M string :=
  if hashable status then
    match status with
    | VStr k =>
        match dict_lookup HOMEWORK_VERDICTS k with
        | Some verdict => mret verdict
        | None => raise KeyError [status]
        end
    | _ => raise KeyError [status]
    end
  else raise TypeError [VStr ("unhashable type: '" +:+ type_name status +:+ "'")].

Definition parse_status (homework : value) : M string :=
  '(name, status) ← try_except
    (name ← subscript_str homework "homework_name";
     status ← subscript_str homework "status";
     mret (name, status))
    (fun c => issubclass c KeyError)
    (fun _ => raise NoHomeworkDetectedError [VStr "Домашней работы нет"]);
  try_except
    (verdict ← verdict_of status;
     mret ("Изменился статус проверки работы " +:+ dquote +:+ str name +:+ dquote
           +:+ ". " +:+ verdict))
    (fun c => issubclass c KeyError)
    (fun _ => raise KeyError [VStr "Статуса %s нет в словаре"; status]).

(** [response.get('homeworks')] in [main], where [response] is a [dict] once
    [check_response] has returned. *)
Definition method_get (o : value) (k : string) : M value :=
  match o with
  | VDict d => mret (dict_get d k)
  | _ =>
      raise AttributeError
        [VStr ("'" +:+ type_name o +:+ "' object has no attribute 'get'")]
  end.

(** The [try] block of the loop. *)
Definition poll_body (bot : Bot) : M unit :=
  s ← get_state;
  response ← get_api_answer (timestamp s);
  homeworks ← check_response response;
  (if truthy homeworks
   then
     hs ← method_get response "homeworks";
     first ← subscript_int hs 0;
     text ← parse_status first;
     send_message bot text
   else mret tt);;
  current_date ← subscript_str response "current_date";
  modify (set_timestamp current_date).

(** The [except Exception as error] block. *)
Definition poll_handler (bot : Bot) (error : exn) : M unit :=
  s ← get_state;
  if exn_ne error (error_message s)
  then
    let message := "Сбой в работе программы: " +:+ exn_str error in
    send_message bot message;;
    modify (set_error_message (OExn error))
  else mret tt.

(** [time.sleep(seconds)] *)
Definition time_sleep (seconds : Z) : M unit := modify (add_sleep seconds).

(** One turn of [while True]. *)
Definition iteration (bot : Bot) : M unit :=
  try_finally
    (try_except (poll_body bot) is_Exception (poll_handler bot))
    (time_sleep RETRY_PERIOD).

(** The first [n] turns of [while True]; an exception leaving a turn leaves
    the loop. *)
Fixpoint poll_loop (bot : Bot) (n : nat) : M unit :=
  match n with
  | O => mret tt
  | S n' => iteration bot;; poll_loop bot n'
  end.

(** [main()], watched for [n] turns of its loop. *)
Definition main (n : nat) : M unit :=
  check_tokens;;
  bot ← telegram_Bot TELEGRAM_TOKEN;
  modify (set_timestamp (VInt (w_time w)));;
  modify (set_error_message (OVal (VStr EmptyString)));;
  poll_loop bot n.

End Homework.

(** The state in which the process starts: nothing allocated, nothing sent;
    the locals of [main] are not yet assigned. *)
Definition initial_state : state :=
  State 0 [] [] 0 VNone (OVal VNone).

(** ** Vocabulary of the properties *)

(** The secrets the environment does not define. *)
Definition absent_secrets (w : world) : list string :=
  List.filter (fun name => bool_decide (w_environ w !! name = None)) TOKEN_NAMES.

(** The [KeyError] of [check_tokens] for the names [missing], raised in [s]. *)
Definition tokens_error (missing : list string) (s : state) : exn :=
  Exn (st_next_id s) KeyError
    [VStr ("Не заданы следующие токены - " +:+ join " " missing +:+ ",")].

(** The sentence [parse_status] builds from a name and a verdict. *)
Definition status_sentence (name : value) (verdict : string) : string :=
  "Изменился статус проверки работы " +:+ dquote +:+ str name +:+ dquote
    +:+ ". " +:+ verdict.

(** The statuses of the verdict table, as objects. *)
Definition known_statuses : list value := VStr <$> HOMEWORK_VERDICTS.*1.

(** The request [get_api_answer] makes for the cursor [ts]. *)
Definition api_request (w : world) (ts : value) : request :=
  Request ENDPOINT (HEADERS w) [("from_date", ts)].

(** The [try] block up to, and without, the assignment of the cursor. *)
Definition poll_fetch (w : world) (bot : Bot) : M value :=
  s ← get_state;
  response ← get_api_answer w (timestamp s);
  homeworks ← check_response response;
  (if truthy homeworks
   then
     hs ← method_get response "homeworks";
     first ← subscript_int hs 0;
     text ← parse_status first;
     send_message w bot text
   else mret tt);;
  subscript_str response "current_date".

(** The [CantSendMessageError] of [send_message], raised in [s]. *)
Definition cant_send (s : state) : exn :=
  Exn (st_next_id s) CantSendMessageError
    [VStr "Невозможно отправить сообщение в Telegram"].

(** The text the handler of the loop sends for the error [e]. *)
Definition failure_message (e : exn) : string :=
  "Сбой в работе программы: " +:+ exn_str e.

(** The locals of [main] when the loop is entered, and its bot. *)
Definition start_state (w : world) : state :=
  set_error_message (OVal (VStr EmptyString))
    (set_timestamp (VInt (w_time w)) initial_state).

Definition the_bot (w : world) : Bot := MkBot (TELEGRAM_TOKEN w).

(** The text a marker stands for: the [str] it holds, or the description of
    the exception it holds. *)
Definition description_of (o : pyobj) : string :=
  match o with
  | OVal v => str v
  | OExn e => exn_str e
  end.

(** [steps R m]: running [m] moves the state along [R], whether [m] returns
    or raises. *)
Definition steps (R : relation state) {A : Type} (m : M A) : Prop :=
  forall s, R s (m s).2.

(** [kept s s']: from [s] to [s'] the two locals of [main] did not change
    and no object identity was given back. *)
Definition kept (s s' : state) : Prop :=
  timestamp s' = timestamp s /\ error_message s' = error_message s /\
  (st_next_id s <= st_next_id s')%nat.

(** [quiet s s']: moreover nothing was handed to the bot. *)
Definition quiet (s s' : state) : Prop :=
  kept s s' /\ st_outbox s' = st_outbox s.

(** [fresh m]: an exception leaving [m] was allocated while [m] ran. *)
Definition fresh {A : Type} (m : M A) : Prop :=
  forall s e s', m s = (Raise e, s') ->
    (st_next_id s <= exn_id e < st_next_id s')%nat.

(** The marker is the initial [str] or an exception allocated earlier. *)
Definition marker_wf (s : state) : Prop :=
  match error_message s with
  | OExn e => (exn_id e < st_next_id s)%nat
  | OVal _ => True
  end.

(** [same proj s s']: from [s] to [s'] the component [proj] of the state did
    not change. *)
Definition same {X : Type} (proj : state -> X) (s s' : state) : Prop :=
  proj s' = proj s.

(** The [try] block once the API has answered with [response]. *)
Definition poll_process (w : world) (bot : Bot) (response : value) : M unit :=
  homeworks ← check_response response;
  (if truthy homeworks
   then
     hs ← method_get response "homeworks";
     first ← subscript_int hs 0;
     text ← parse_status first;
     send_message w bot text
   else mret tt);;
  current_date ← subscript_str response "current_date";
  modify (set_timestamp current_date).

(** Whether the status code makes [raise_for_status] raise. *)
Definition is_http_error (code : Z) : bool :=
  (400 <=? code) && (code <? 600).

(** The message of the [HTTPError] that [raise_for_status] builds. *)
Definition http_error_line (r : response) : string :=
  pretty (status_code r) +:+ " "
    +:+ (if status_code r <? 500 then "Client" else "Server")
    +:+ " Error: " +:+ reason r +:+ " for url: " +:+ url r.

(** The [TypeError] of [check_response], raised in [s]. *)
Definition malformed_error (s : state) : exn :=
  Exn (st_next_id s) TypeError [VStr "Структура данных не соответствует ожиданиям"].

(** A delivery that carries a failure notification of the loop's handler. *)
Definition is_failure_report (w : world) (dl : delivery) : Prop :=
  exists e, dl_chat dl = TELEGRAM_CHAT_ID w /\ dl_text dl = failure_message e.

(** One turn of the loop, given the first homework of the response and what
    the lookup of [current_date] in the response gives; the homeworks after
    the first are no argument of it. *)
Definition turn_on_first (w : world) (bot : Bot) (first : value)
    (current_date : option value) : M unit :=
  try_finally
    (try_except
       (text ← parse_status first;
        send_message w bot text;;
        cd ← match current_date with
             | Some cd => mret cd
             | None => raise KeyError [VStr "current_date"]
             end;
        modify (set_timestamp cd))
       is_Exception (poll_handler w bot))
    (time_sleep RETRY_PERIOD).

(** ** Worlds to run the program in *)

(** A world whose API answers 404. *)
Definition world_not_found : world := World
  (<["PRACTICUM_TOKEN" := "y0_secret"]>
    (<["TELEGRAM_TOKEN" := "12345:token"]>
      (<["TELEGRAM_CHAT_ID" := "1001"]> ∅)))
  1700000000
  (fun _ => Returns (Response 404 "https://practicum.yandex.ru/api/" "Not Found"
     (Returns (VDict [("code", VStr "not_found")]))))
  (fun _ => Returns tt)
  (Returns tt).

(** A world whose API answers 204 with a well-formed body. *)
Definition world_no_content : world := World
  (<["PRACTICUM_TOKEN" := "y0_secret"]>
    (<["TELEGRAM_TOKEN" := "12345:token"]>
      (<["TELEGRAM_CHAT_ID" := "1001"]> ∅)))
  1700000000
  (fun _ => Returns (Response 204 EmptyString "No Content"
     (Returns (VDict [("homeworks", VList []); ("current_date", VInt 1700000100)]))))
  (fun _ => Returns tt)
  (Returns tt).


(** A world whose environment defines all three secrets, the bot token as the
    empty string. *)
Definition world_empty_token : world := World
  (<["PRACTICUM_TOKEN" := "y0_secret"]>
    (<["TELEGRAM_TOKEN" := EmptyString]>
      (<["TELEGRAM_CHAT_ID" := "1001"]> ∅)))
  1700000000
  (fun _ => Returns (Response 200 EmptyString "OK" (Returns (VDict []))))
  (fun _ => Returns tt)
  (Returns tt).

(** A world that defines only the API token. *)
Definition world_one_secret : world := World
  (<["PRACTICUM_TOKEN" := "y0_secret"]> ∅)
  1700000000
  (fun _ => Returns (Response 200 EmptyString "OK" (Returns (VDict []))))
  (fun _ => Returns tt)
  (Returns tt).

(** A world without network: every [requests.get] raises a connection
    error. *)
Definition world_offline : world := World
  (<["PRACTICUM_TOKEN" := "y0_secret"]>
    (<["TELEGRAM_TOKEN" := "12345:token"]>
      (<["TELEGRAM_CHAT_ID" := "1001"]> ∅)))
  1700000000
  (fun _ => Raises RequestsConnectionError [VStr "Max retries exceeded"])
  (fun _ => Returns tt)
  (Returns tt).

(** A world whose API always answers with no homework and a new cursor. *)
Definition world_idle : world := World
  (<["PRACTICUM_TOKEN" := "y0_secret"]>
    (<["TELEGRAM_TOKEN" := "12345:token"]>
      (<["TELEGRAM_CHAT_ID" := "1001"]> ∅)))
  1700000000
  (fun _ => Returns (Response 200 EmptyString "OK"
     (Returns (VDict [("homeworks", VList []); ("current_date", VInt 1700000100)]))))
  (fun _ => Returns tt)
  (Returns tt).

(** A world whose API answers with no homework and no cursor at all. *)
Definition world_no_cursor : world := World
  (<["PRACTICUM_TOKEN" := "y0_secret"]>
    (<["TELEGRAM_TOKEN" := "12345:token"]>
      (<["TELEGRAM_CHAT_ID" := "1001"]> ∅)))
  1700000000
  (fun _ => Returns (Response 200 EmptyString "OK"
     (Returns (VDict [("homeworks", VList [])]))))
  (fun _ => Returns tt)
  (Returns tt).

(** A world whose API reports two changed homeworks at once. *)
Definition world_two_homeworks : world := World
  (<["PRACTICUM_TOKEN" := "y0_secret"]>
    (<["TELEGRAM_TOKEN" := "12345:token"]>
      (<["TELEGRAM_CHAT_ID" := "1001"]> ∅)))
  1700000000
  (fun _ => Returns (Response 200 EmptyString "OK"
     (Returns (VDict
        [("homeworks",
          VList [VDict [("homework_name", VStr "hw2"); ("status", VStr "reviewing")];
                 VDict [("homework_name", VStr "hw1"); ("status", VStr "approved")]]);
         ("current_date", VInt 1700000100)]))))
  (fun _ => Returns tt)
  (Returns tt).

(** The same two homeworks, with a bot that cannot reach Telegram. *)
Definition world_two_homeworks_muted : world := World
  (w_environ world_two_homeworks)
  1700000000
  (w_get world_two_homeworks)
  (fun _ => Raises NetworkError [VStr "Connection refused"])
  (Returns tt).

(** A world whose API answers with a JSON array where a mapping is expected,
    and whose bot delivers. *)
Definition world_malformed : world := World
  (<["PRACTICUM_TOKEN" := "y0_secret"]>
    (<["TELEGRAM_TOKEN" := "12345:token"]>
      (<["TELEGRAM_CHAT_ID" := "1001"]> ∅)))
  1700000000
  (fun _ => Returns (Response 200 EmptyString "OK" (Returns (VList []))))
  (fun _ => Returns tt)
  (Returns tt).

(** The same API, with a bot that cannot reach Telegram. *)
Definition world_muted : world := World
  (w_environ world_malformed)
  1700000000
  (w_get world_malformed)
  (fun _ => Raises NetworkError [VStr "Connection refused"])
  (Returns tt).

(** ** Reasoning about computations *)

Lemma bind_Ok {A B : Type} (m : M A) (f : A -> M B) s a s' :
  m s = (Ok a, s') -> (m ≫= f) s = f a s'.
Proof. intros H. unfold mbind, M_bind. now rewrite H. Qed.

Lemma bind_Raise {A B : Type} (m : M A) (f : A -> M B) s e s' :
  m s = (Raise e, s') -> (m ≫= f) s = (Raise e, s').
Proof. intros H. unfold mbind, M_bind. now rewrite H. Qed.

Lemma try_except_Ok {A : Type} (m : M A) c h s a s' :
  m s = (Ok a, s') -> try_except m c h s = (Ok a, s').
Proof. intros H. unfold try_except. now rewrite H. Qed.

Lemma try_except_caught {A : Type} (m : M A) c h s e s' :
  m s = (Raise e, s') -> c (exn_class_of e) = true ->
  try_except m c h s = h e s'.
Proof. intros H Hc. unfold try_except. now rewrite H, Hc. Qed.

Lemma try_except_passed {A : Type} (m : M A) c h s e s' :
  m s = (Raise e, s') -> c (exn_class_of e) = false ->
  try_except m c h s = (Raise e, s').
Proof. intros H Hc. unfold try_except. now rewrite H, Hc. Qed.

(** *** What a computation leaves alone *)

Section Steps.

Context (R : relation state) `{!PreOrder R}.

Lemma steps_ret {A : Type} (a : A) : steps R (mret a).
Proof. intros s. simpl. reflexivity. Qed.

Lemma steps_get_state : steps R get_state.
Proof. intros s. simpl. reflexivity. Qed.

Lemma steps_bind {A B : Type} (m : M A) (f : A -> M B) :
  steps R m -> (forall a, steps R (f a)) -> steps R (m ≫= f).
Proof.
  intros Hm Hf s. unfold mbind, M_bind.
  specialize (Hm s). destruct (m s) as [[a|e] s1]; simpl in *; [|done].
  etrans; [exact Hm|apply Hf].
Qed.

Lemma steps_try_except {A : Type} (m : M A) c (h : exn -> M A) :
  steps R m -> (forall e, steps R (h e)) -> steps R (try_except m c h).
Proof.
  intros Hm Hh s. unfold try_except.
  specialize (Hm s). destruct (m s) as [[a|e] s1]; simpl in *; [done|].
  destruct (c (exn_class_of e)); [|done].
  etrans; [exact Hm|apply Hh].
Qed.

Lemma steps_try_finally {A : Type} (m : M A) (f : M unit) :
  steps R m -> steps R f -> steps R (try_finally m f).
Proof.
  intros Hm Hf s. unfold try_finally.
  specialize (Hm s). destruct (m s) as [r s1]; simpl in *.
  specialize (Hf s1). destruct (f s1) as [[[]|e] s2]; simpl in *;
    (etrans; [exact Hm|exact Hf]).
Qed.

Lemma steps_modify (g : state -> state) :
  (forall s, R s (g s)) -> steps R (modify g).
Proof. intros Hg s. apply Hg. Qed.

Lemma steps_raise {A : Type} c args :
  (forall s, R s (alloc s)) -> steps R (@raise A c args).
Proof. intros Ha s. apply Ha. Qed.

Lemma steps_if {A : Type} (b : bool) (m1 m2 : M A) :
  steps R m1 -> steps R m2 -> steps R (if b then m1 else m2).
Proof. now destruct b. Qed.

End Steps.

#[global] Instance kept_preorder : PreOrder kept.
Proof.
  split.
  - intros s. unfold kept. auto.
  - intros s1 s2 s3 (H1 & H2 & H3) (H4 & H5 & H6). unfold kept.
    repeat split; [congruence|congruence|lia].
Qed.

#[global] Instance quiet_preorder : PreOrder quiet.
Proof.
  split.
  - intros s. split; [reflexivity|done].
  - intros s1 s2 s3 [H1 H2] [H3 H4]. split; [by etrans|congruence].
Qed.

Lemma kept_alloc s : kept s (alloc s).
Proof. unfold kept. simpl. auto. Qed.

Lemma quiet_alloc s : quiet s (alloc s).
Proof. split; [apply kept_alloc|done]. Qed.

Lemma quiet_log_request rq s : quiet s (log_request rq s).
Proof. unfold quiet, kept. simpl. auto. Qed.

Lemma kept_log_delivery d s : kept s (log_delivery d s).
Proof. unfold kept. simpl. auto. Qed.

Lemma kept_add_sleep n s : kept s (add_sleep n s).
Proof. unfold kept. simpl. auto. Qed.

Lemma quiet_kept s s' : quiet s s' -> kept s s'.
Proof. now intros [H _]. Qed.

Lemma steps_quiet_kept {A : Type} (m : M A) : steps quiet m -> steps kept m.
Proof. intros H s. apply quiet_kept, H. Qed.

Create HintDb frame.
#[global] Hint Resolve steps_ret steps_get_state steps_bind steps_try_except
  steps_try_finally steps_modify steps_raise steps_if
  kept_alloc quiet_alloc quiet_log_request kept_log_delivery kept_add_sleep : frame.
#[global] Hint Extern 1 (PreOrder _) => exact _ : frame.

Ltac frame_step :=
  lazymatch goal with
  | |- steps _ (mret _) => apply steps_ret
  | |- steps _ get_state => apply steps_get_state
  | |- steps _ (raise _ _) => apply steps_raise; auto with frame
  | |- steps _ (modify _) => apply steps_modify; auto with frame
  | |- steps _ (_ ≫= _) =>
      apply steps_bind; try exact _; [|intros ?; cbv beta]
  | |- steps _ (try_except _ _ _) =>
      apply steps_try_except; try exact _; [|intros ?; cbv beta]
  | |- steps _ (try_finally _ _) =>
      apply steps_try_finally; try exact _
  | |- steps _ (if ?b then _ else _) => destruct b
  | |- steps _ (match ?x with _ => _ end) => destruct x
  end.

Ltac frame := repeat (frame_step || solve [auto with frame]).

Section Frame.

Variable w : world.

Lemma load_local_quiet {A : Type} name (slot : option A) :
  steps quiet (load_local name slot).
Proof. unfold load_local. frame. Qed.

Lemma subscript_str_quiet o k : steps quiet (subscript_str o k).
Proof. unfold subscript_str. frame. Qed.

Lemma subscript_int_quiet o i : steps quiet (subscript_int o i).
Proof. unfold subscript_int. frame. Qed.

Lemma method_get_quiet o k : steps quiet (method_get o k).
Proof. unfold method_get. frame. Qed.

Lemma requests_get_quiet rq : steps quiet (requests_get w rq).
Proof.
  intros s. unfold requests_get.
  destruct (w_get w _); simpl; [apply quiet_log_request|].
  etrans; [apply quiet_log_request|apply quiet_alloc].
Qed.

Lemma raise_for_status_quiet r : steps quiet (raise_for_status r).
Proof. unfold raise_for_status. frame. Qed.

Lemma response_json_quiet r : steps quiet (response_json r).
Proof. unfold response_json. frame. Qed.

#[local] Hint Resolve load_local_quiet subscript_str_quiet subscript_int_quiet
  method_get_quiet requests_get_quiet raise_for_status_quiet
  response_json_quiet : frame.

Lemma get_api_answer_quiet ts : steps quiet (get_api_answer w ts).
Proof. unfold get_api_answer. frame. Qed.

Lemma check_response_quiet v : steps quiet (check_response v).
Proof. unfold check_response. frame. Qed.

Lemma verdict_of_quiet status : steps quiet (verdict_of status).
Proof. unfold verdict_of. frame. Qed.

#[local] Hint Resolve verdict_of_quiet : frame.

Lemma parse_status_quiet hw : steps quiet (parse_status hw).
Proof. unfold parse_status. frame. Qed.

Lemma bot_send_message_kept bot chat text :
  steps kept (bot_send_message w bot chat text).
Proof.
  intros s. unfold bot_send_message.
  destruct (w_send w _); simpl; [apply kept_log_delivery|].
  etrans; [apply kept_log_delivery|apply kept_alloc].
Qed.

#[local] Hint Resolve bot_send_message_kept : frame.

Lemma send_message_kept bot text : steps kept (send_message w bot text).
Proof. unfold send_message. frame. Qed.

End Frame.

#[global] Hint Resolve load_local_quiet subscript_str_quiet subscript_int_quiet
  method_get_quiet requests_get_quiet raise_for_status_quiet response_json_quiet
  get_api_answer_quiet check_response_quiet verdict_of_quiet parse_status_quiet
  bot_send_message_kept send_message_kept steps_quiet_kept : frame.

(** ** The configuration check *)

Lemma token_missing_globals (w : world) (name : string) :
  name ∈ TOKEN_NAMES ->
  token_missing (globals w) name = bool_decide (w_environ w !! name = None).
Proof.
  intros Hin. unfold token_missing, globals.
  assert (Hcases : name = "PRACTICUM_TOKEN" \/ name = "TELEGRAM_TOKEN"
                   \/ name = "TELEGRAM_CHAT_ID").
  { unfold TOKEN_NAMES in Hin.
    rewrite !elem_of_cons, elem_of_nil in Hin. tauto. }
  destruct Hcases as [-> | [-> | ->]]; simplify_map_eq;
    unfold PRACTICUM_TOKEN, TELEGRAM_TOKEN, TELEGRAM_CHAT_ID, os_getenv;
    destruct (w_environ w !! _); reflexivity.
Qed.

Lemma missing_tokens_globals (w : world) :
  missing_tokens (globals w) = absent_secrets w.
Proof.
  unfold missing_tokens, absent_secrets, TOKEN_NAMES. simpl.
  rewrite !token_missing_globals by (unfold TOKEN_NAMES; set_solver).
  reflexivity.
Qed.

Lemma check_tokens_run (w : world) (s : state) :
  check_tokens w s =
    if bool_decide (absent_secrets w = [])
    then (Ok tt, s)
    else (Raise (tokens_error (absent_secrets w) s), alloc s).
Proof.
  unfold check_tokens, check_tokens_in. rewrite missing_tokens_globals.
  destruct (bool_decide (absent_secrets w = [])); reflexivity.
Qed.

(** C2, as stated, fails: a secret that is the empty string passes the
    configuration check. *)
Lemma check_tokens_accepts_empty_secret :
  os_getenv world_empty_token "TELEGRAM_TOKEN" = VStr EmptyString /\
  check_tokens world_empty_token initial_state = (Ok tt, initial_state).
Proof. split; reflexivity. Qed.

(** C2 (amended): for every assignment of the three secrets, if any secret is
    absent from the environment the configuration check raises a [KeyError]
    whose message lists exactly the absent names, in the order of the check,
    and [main] ends with that error before any request or delivery; if all
    three are defined (empty or not) the check returns without raising. *)
Theorem check_tokens_names_absent_secrets (w : world) (s : state) (n : nat) :
  (absent_secrets w = [] -> check_tokens w s = (Ok tt, s)) /\
  (absent_secrets w <> [] ->
     check_tokens w s = (Raise (tokens_error (absent_secrets w) s), alloc s) /\
     main w n s = (Raise (tokens_error (absent_secrets w) s), alloc s) /\
     st_requests (main w n s).2 = st_requests s /\
     st_outbox (main w n s).2 = st_outbox s).
Proof.
  pose proof (check_tokens_run w s) as Hrun.
  split; intros Habs.
  - now rewrite bool_decide_eq_true_2 in Hrun.
  - rewrite bool_decide_eq_false_2 in Hrun by done.
    assert (Hmain : main w n s = (Raise (tokens_error (absent_secrets w) s), alloc s)).
    { unfold main. now rewrite (bind_Raise _ _ _ _ _ Hrun). }
    rewrite Hmain. auto.
Qed.

Lemma check_tokens_names_absent_secrets_witness :
  check_tokens world_empty_token initial_state = (Ok tt, initial_state) /\
  check_tokens world_one_secret initial_state =
    (Raise (Exn 0 KeyError
       [VStr "Не заданы следующие токены - TELEGRAM_TOKEN TELEGRAM_CHAT_ID,"]),
     alloc initial_state) /\
  st_requests (main world_one_secret 3 initial_state).2 = [].
Proof.
  split.
  - apply (check_tokens_names_absent_secrets world_empty_token initial_state 0).
    reflexivity.
  - pose proof (check_tokens_names_absent_secrets world_one_secret initial_state 3)
      as [_ H].
    destruct H as (H1 & _ & H3 & _); [discriminate|].
    split; [exact H1|exact H3].
Defined.

(** ** The response validator *)

Lemma check_response_accepts d l s :
  dict_lookup d "homeworks" = Some (VList l) ->
  check_response (VDict d) s = (Ok (VList l), s).
Proof.
  intros H. unfold check_response, dict_get, subscript_str. rewrite H. reflexivity.
Qed.

Lemma check_response_rejects v s :
  (forall d l, v = VDict d -> dict_lookup d "homeworks" <> Some (VList l)) ->
  check_response v s =
    (Raise (Exn (st_next_id s) TypeError
              [VStr "Структура данных не соответствует ожиданиям"]), alloc s).
Proof.
  intros H. unfold check_response.
  destruct v as [| | | | | |d]; try reflexivity.
  unfold dict_get. specialize (H d).
  destruct (dict_lookup d "homeworks") as [[| | | | |l|]|]; try reflexivity.
  now destruct (H l).
Qed.

(** What a successful validation tells about the response. *)
Lemma check_response_Ok_inv v s hs s' :
  check_response v s = (Ok hs, s') ->
  exists d l, v = VDict d /\ dict_lookup d "homeworks" = Some (VList l) /\
              hs = VList l /\ s' = s.
Proof.
  unfold check_response. intros H.
  destruct v as [| | | | | |d]; try discriminate.
  unfold dict_get, subscript_str in H.
  destruct (dict_lookup d "homeworks") as [[| | | | |l|]|] eqn:E; try discriminate.
  simpl in H. unfold mret, M_ret in H. inversion H; subst. by eexists _, _.
Qed.

(** C4: the validator does not look for the [current_date] key.  A mapping
    with a list under [homeworks] and no [current_date] at all is accepted,
    and its homework list returned. *)
Theorem check_response_without_current_date (s : state) :
  dict_lookup [("homeworks", VList [])] "current_date" = None /\
  check_response (VDict [("homeworks", VList [])]) s = (Ok (VList []), s).
Proof. split; reflexivity. Qed.

(** ** The status translator *)

Lemma parse_status_fields d name status s :
  dict_lookup d "homework_name" = Some name ->
  dict_lookup d "status" = Some status ->
  parse_status (VDict d) s =
    try_except
      (verdict ← verdict_of status; mret (status_sentence name verdict))
      (fun c => issubclass c KeyError)
      (fun _ => raise KeyError [VStr "Статуса %s нет в словаре"; status]) s.
Proof.
  intros Hn Hs. unfold parse_status.
  rewrite (bind_Ok _ _ s (name, status) s); [reflexivity|].
  apply try_except_Ok. unfold subscript_str. rewrite (bind_Ok _ _ s name s) by now rewrite Hn.
  rewrite (bind_Ok _ _ s status s) by now rewrite Hs.
  reflexivity.
Qed.

(** C5: for a record with a name and a status of the verdict table the
    translator returns the sentence made of the name, in double quotes, and
    the verdict of that status; for [{"homework_name": "hw1", "status":
    "approved"}] this is the sentence about [hw1] that the reviewer liked
    everything. *)
Theorem parse_status_known_status d (name : value) (status verdict : string) s :
  dict_lookup d "homework_name" = Some name ->
  dict_lookup d "status" = Some (VStr status) ->
  dict_lookup HOMEWORK_VERDICTS status = Some verdict ->
  parse_status (VDict d) s =
    (Ok ("Изменился статус проверки работы " +:+ dquote +:+ str name +:+ dquote
         +:+ ". " +:+ verdict), s)
  /\ parse_status (VDict [("homework_name", VStr "hw1"); ("status", VStr "approved")]) s =
    (Ok ("Изменился статус проверки работы " +:+ dquote +:+ "hw1" +:+ dquote
         +:+ ". Работа проверена: ревьюеру всё понравилось. Ура!"), s).
Proof.
  intros Hn Hs Hv. split; [|reflexivity].
  rewrite (parse_status_fields d name (VStr status)) by done.
  apply try_except_Ok. unfold verdict_of. simpl hashable. cbv iota.
  rewrite Hv. reflexivity.
Qed.

Lemma parse_status_known_status_witness :
  parse_status
    (VDict [("id", VInt 7); ("status", VStr "rejected"); ("homework_name", VStr "hw2")])
    initial_state =
    (Ok ("Изменился статус проверки работы " +:+ dquote +:+ "hw2" +:+ dquote
         +:+ ". Работа проверена: у ревьюера есть замечания."), initial_state).
Proof.
  apply (parse_status_known_status
           [("id", VInt 7); ("status", VStr "rejected"); ("homework_name", VStr "hw2")]
           (VStr "hw2") "rejected" "Работа проверена: у ревьюера есть замечания."
           initial_state); reflexivity.
Defined.

Lemma verdict_of_unknown status s :
  hashable status = true -> status ∉ known_statuses ->
  verdict_of status s = (Raise (Exn (st_next_id s) KeyError [status]), alloc s).
Proof.
  intros Hh Hk. unfold verdict_of. rewrite Hh.
  destruct status as [| | | |k| |]; try reflexivity.
  destruct (dict_lookup HOMEWORK_VERDICTS k) eqn:E; [|reflexivity].
  exfalso. apply Hk. unfold known_statuses, HOMEWORK_VERDICTS in *. simpl in *.
  repeat case_bool_decide; subst; try discriminate; set_solver.
Qed.

(** C6: a record with both fields and a (hashable) status outside the verdict
    table makes the translator raise the [KeyError] that carries the status,
    and no message is returned; a record without the name field or without
    the status field makes it raise [NoHomeworkDetectedError]. *)
Theorem parse_status_errors d s :
  (forall name status,
     dict_lookup d "homework_name" = Some name ->
     dict_lookup d "status" = Some status ->
     hashable status = true ->
     status ∉ known_statuses ->
     parse_status (VDict d) s =
       (Raise (Exn (S (st_next_id s)) KeyError [VStr "Статуса %s нет в словаре"; status]),
        alloc (alloc s))) /\
  (dict_lookup d "homework_name" = None \/ dict_lookup d "status" = None ->
     parse_status (VDict d) s =
       (Raise (Exn (S (st_next_id s)) NoHomeworkDetectedError [VStr "Домашней работы нет"]),
        alloc (alloc s))).
Proof.
  split.
  - intros name status Hn Hs Hh Hk.
    rewrite (parse_status_fields d name status) by done.
    erewrite try_except_caught; cycle 1.
    { apply bind_Raise. now apply verdict_of_unknown. }
    { reflexivity. }
    reflexivity.
  - intros Habsent. unfold parse_status.
    erewrite bind_Raise; [reflexivity|].
    unfold subscript_str.
    destruct (dict_lookup d "homework_name") as [name|] eqn:En.
    + destruct Habsent as [?|Hs]; [discriminate|]. rewrite Hs.
      erewrite try_except_caught; cycle 1.
      { rewrite (bind_Ok _ _ s name s) by reflexivity.
        apply bind_Raise. reflexivity. }
      { reflexivity. }
      reflexivity.
    + erewrite try_except_caught; cycle 1.
      { apply bind_Raise. reflexivity. }
      { reflexivity. }
      reflexivity.
Qed.

Lemma parse_status_errors_witness :
  parse_status (VDict [("homework_name", VStr "hw1"); ("status", VStr "archived")])
    initial_state =
    (Raise (Exn 1 KeyError [VStr "Статуса %s нет в словаре"; VStr "archived"]),
     alloc (alloc initial_state)) /\
  parse_status (VDict [("homework_name", VStr "hw1")]) initial_state =
    (Raise (Exn 1 NoHomeworkDetectedError [VStr "Домашней работы нет"]),
     alloc (alloc initial_state)).
Proof.
  split.
  - apply (proj1 (parse_status_errors
             [("homework_name", VStr "hw1"); ("status", VStr "archived")] initial_state)
             (VStr "hw1") (VStr "archived")); try reflexivity.
    unfold known_statuses. simpl. rewrite !not_elem_of_cons.
    repeat split; try discriminate. apply not_elem_of_nil.
  - apply (proj2 (parse_status_errors [("homework_name", VStr "hw1")] initial_state)).
    right. reflexivity.
Defined.

(** X9: a status that is a list or a mapping is no key at all: the lookup in
    the verdict table raises [TypeError] (unhashable type), which neither
    handler of the translator catches; it is not the [KeyError] of an unknown
    status. *)
Lemma parse_status_unhashable_status d name status s :
  dict_lookup d "homework_name" = Some name ->
  dict_lookup d "status" = Some status ->
  hashable status = false ->
  parse_status (VDict d) s =
    (Raise (Exn (st_next_id s) TypeError
              [VStr ("unhashable type: '" +:+ type_name status +:+ "'")]),
     alloc s).
Proof.
  intros Hn Hs Hh. rewrite (parse_status_fields d name status) by done.
  erewrite try_except_passed; [reflexivity| |reflexivity].
  apply bind_Raise. unfold verdict_of. now rewrite Hh.
Qed.

(** ** The API client *)

Lemma get_api_answer_returns w ts s r v :
  w_get w (length (st_requests s)) = Returns r ->
  status_code r = 200 ->
  json r = Returns v ->
  get_api_answer w ts s = (Ok v, log_request (api_request w ts) s).
Proof.
  intros Hget Hcode Hjson. unfold get_api_answer.
  rewrite (bind_Ok _ _ s r (log_request (api_request w ts) s)).
  2:{ apply try_except_Ok. unfold requests_get. now rewrite Hget. }
  rewrite Hcode. simpl. unfold response_json. now rewrite Hjson.
Qed.

(** C9: when [requests.get] itself raises a request exception, the handler
    of the API client reads the local [response], which was never bound, and
    so the client fails with [UnboundLocalError] and not with the
    [RequestException] it was about to build from the status code. *)
Theorem get_api_answer_transport_failure w ts s c args :
  w_get w (length (st_requests s)) = Raises c args ->
  issubclass c RequestException = true ->
  get_api_answer w ts s =
    (Raise (Exn (S (st_next_id s)) UnboundLocalError
              [VStr "local variable 'response' referenced before assignment"]),
     alloc (alloc (log_request (api_request w ts) s))).
Proof.
  intros Hget Hsub. unfold get_api_answer.
  erewrite bind_Raise; [reflexivity|].
  erewrite try_except_caught; cycle 1.
  { unfold requests_get. rewrite Hget. reflexivity. }
  { exact Hsub. }
  reflexivity.
Qed.

Lemma get_api_answer_transport_failure_witness :
  get_api_answer world_offline (VInt 1700000000) initial_state =
    (Raise (Exn 1 UnboundLocalError
              [VStr "local variable 'response' referenced before assignment"]),
     alloc (alloc (log_request (api_request world_offline (VInt 1700000000))
                     initial_state))).
Proof.
  apply (get_api_answer_transport_failure world_offline (VInt 1700000000)
           initial_state RequestsConnectionError [VStr "Max retries exceeded"]);
    reflexivity.
Defined.

(** ** The poll loop *)

Lemma poll_body_split w bot s :
  poll_body w bot s =
    (current_date ← poll_fetch w bot; modify (set_timestamp current_date)) s.
Proof.
  unfold poll_body, poll_fetch, mbind, M_bind, get_state.
  destruct (get_api_answer w (timestamp s) s) as [[response|e] s1]; [|reflexivity].
  destruct (check_response response s1) as [[homeworks|e] s2]; [|reflexivity].
  match goal with
  | |- context [match ?m s2 with _ => _ end] => destruct (m s2) as [[[]|e] s3]
  end; [|reflexivity].
  destruct (subscript_str response "current_date" s3) as [[cd|e] s4]; reflexivity.
Qed.

Lemma poll_fetch_kept w bot : steps kept (poll_fetch w bot).
Proof. unfold poll_fetch. frame. Qed.

(** The [try] block either assigns the cursor last, or raises with the
    locals of [main] as they were. *)
Lemma poll_body_Ok_inv w bot s s1 :
  poll_body w bot s = (Ok tt, s1) ->
  exists cd s0, poll_fetch w bot s = (Ok cd, s0) /\ s1 = set_timestamp cd s0.
Proof.
  rewrite poll_body_split. unfold mbind, M_bind.
  destruct (poll_fetch w bot s) as [[cd|e] s0]; [|discriminate].
  unfold modify. intros H. inversion H. eauto.
Qed.

Lemma poll_body_Raise_inv w bot s e s1 :
  poll_body w bot s = (Raise e, s1) -> poll_fetch w bot s = (Raise e, s1).
Proof.
  rewrite poll_body_split. unfold mbind, M_bind.
  destruct (poll_fetch w bot s) as [[cd|e'] s0]; [unfold modify; discriminate|].
  intros H. inversion H. reflexivity.
Qed.

Lemma poll_body_Raise_kept w bot s e s1 :
  poll_body w bot s = (Raise e, s1) -> kept s s1.
Proof.
  intros H%poll_body_Raise_inv.
  pose proof (poll_fetch_kept w bot s) as Hk. now rewrite H in Hk.
Qed.

Lemma send_message_run w bot text s :
  send_message w bot text s =
    match w_send w (length (st_outbox s)) with
    | Returns _ =>
        (Ok tt, log_delivery (Delivery (TELEGRAM_CHAT_ID w) text true) s)
    | Raises c args =>
        let s' := alloc (log_delivery (Delivery (TELEGRAM_CHAT_ID w) text false) s) in
        if issubclass c TelegramError
        then (Raise (cant_send s'), alloc s')
        else (Raise (Exn (st_next_id s) c args), s')
    end.
Proof.
  unfold send_message, try_except, bot_send_message.
  destruct (w_send w (length (st_outbox s))) as [[]|c args]; [reflexivity|].
  simpl. destruct (issubclass c TelegramError); reflexivity.
Qed.

Lemma iteration_Ok w bot s s1 :
  poll_body w bot s = (Ok tt, s1) ->
  iteration w bot s = (Ok tt, add_sleep RETRY_PERIOD s1).
Proof.
  intros H. unfold iteration, try_finally.
  rewrite (try_except_Ok _ _ _ _ _ _ H). reflexivity.
Qed.

Lemma iteration_caught w bot s e s1 :
  poll_body w bot s = (Raise e, s1) ->
  iteration w bot s =
    ((poll_handler w bot e s1).1, add_sleep RETRY_PERIOD (poll_handler w bot e s1).2).
Proof.
  intros H. unfold iteration, try_finally.
  rewrite (try_except_caught _ _ _ _ _ _ H) by reflexivity.
  destruct (poll_handler w bot e s1) as [r s2]. reflexivity.
Qed.

(** The handler never touches the cursor. *)
Lemma poll_handler_cursor w bot e s :
  timestamp (poll_handler w bot e s).2 = timestamp s.
Proof.
  unfold poll_handler, mbind, M_bind, get_state.
  destruct (exn_ne e (error_message s)); [|reflexivity].
  pose proof (send_message_kept w bot ("Сбой в работе программы: " +:+ exn_str e) s)
    as [Hts _].
  destruct (send_message w bot _ s) as [[[]|e'] s2]; simpl in *; exact Hts.
Qed.

Lemma main_start w n :
  absent_secrets w = [] -> w_bot w = Returns tt ->
  main w n initial_state = poll_loop w (the_bot w) n (start_state w).
Proof.
  intros Habs Hbot. unfold main.
  rewrite (bind_Ok _ _ initial_state tt initial_state).
  2:{ rewrite check_tokens_run. now rewrite bool_decide_eq_true_2. }
  rewrite (bind_Ok _ _ initial_state (the_bot w) initial_state).
  2:{ unfold telegram_Bot. now rewrite Hbot. }
  reflexivity.
Qed.

(** C10: when the [try] block of an iteration raises, whatever step raised
    and however the handler ends, the cursor after the iteration is the
    cursor before it. *)
Theorem iteration_error_keeps_cursor w bot s e s1 :
  poll_body w bot s = (Raise e, s1) ->
  timestamp (iteration w bot s).2 = timestamp s.
Proof.
  intros H. rewrite (iteration_caught _ _ _ _ _ H). simpl.
  rewrite poll_handler_cursor.
  now destruct (poll_body_Raise_kept _ _ _ _ _ H) as [Hts _].
Qed.

Lemma iteration_error_keeps_cursor_witness :
  timestamp (iteration world_offline (the_bot world_offline)
               (start_state world_offline)).2 = VInt 1700000000.
Proof.
  eapply (iteration_error_keeps_cursor world_offline (the_bot world_offline)
            (start_state world_offline)).
  reflexivity.
Defined.

(** C7: when the response passes the validator with an empty homework list,
    the iteration hands nothing to the bot and ends with the cursor set to
    the response's [current_date]. *)
Theorem iteration_empty_homeworks w bot s response cd s1 :
  get_api_answer w (timestamp s) s = (Ok response, s1) ->
  check_response response s1 = (Ok (VList []), s1) ->
  subscript_str response "current_date" s1 = (Ok cd, s1) ->
  iteration w bot s = (Ok tt, add_sleep RETRY_PERIOD (set_timestamp cd s1)) /\
  st_outbox (iteration w bot s).2 = st_outbox s /\
  timestamp (iteration w bot s).2 = cd.
Proof.
  intros Hget Hcheck Hcd.
  assert (Hbody : poll_body w bot s = (Ok tt, set_timestamp cd s1)).
  { unfold poll_body.
    rewrite (bind_Ok _ _ s s s) by reflexivity.
    rewrite (bind_Ok _ _ _ _ _ Hget).
    rewrite (bind_Ok _ _ _ _ _ Hcheck).
    simpl truthy. cbv iota.
    rewrite (bind_Ok _ _ s1 tt s1) by reflexivity.
    rewrite (bind_Ok _ _ _ _ _ Hcd). reflexivity. }
  rewrite (iteration_Ok _ _ _ _ Hbody). simpl.
  repeat split.
  pose proof (get_api_answer_quiet w (timestamp s) s) as [_ Hout].
  now rewrite Hget in Hout.
Qed.

Lemma iteration_empty_homeworks_witness :
  st_outbox (iteration world_idle (the_bot world_idle) (start_state world_idle)).2 = []
  /\ timestamp (iteration world_idle (the_bot world_idle) (start_state world_idle)).2
     = VInt 1700000100.
Proof.
  eapply (iteration_empty_homeworks world_idle (the_bot world_idle)
            (start_state world_idle)
            (VDict [("homeworks", VList []); ("current_date", VInt 1700000100)])
            (VInt 1700000100)); reflexivity.
Defined.

(** What the missing check of [check_response] leads to: a response without
    [current_date] passes the validator, the assignment of the cursor raises
    [KeyError], and the iteration reports that as a failure. *)
Lemma iteration_without_current_date :
  iteration world_no_cursor (the_bot world_no_cursor) (start_state world_no_cursor) =
    (Ok tt,
     State 1 [api_request world_no_cursor (VInt 1700000000)]
       [Delivery (VStr "1001") "Сбой в работе программы: 'current_date'" true]
       600 (VInt 1700000000) (OExn (Exn 0 KeyError [VStr "current_date"]))).
Proof. vm_compute. reflexivity. Qed.

(** The [try] block on a response with one or more homework records: it
    translates the first record and hands the bot that one translation; when
    the translation fails the block hands the bot nothing. *)
Lemma poll_body_first_homework_only w bot s response first rest s1 :
  get_api_answer w (timestamp s) s = (Ok response, s1) ->
  check_response response s1 = (Ok (VList (first :: rest)), s1) ->
  poll_body w bot s =
    (text ← parse_status first;
     send_message w bot text;;
     current_date ← subscript_str response "current_date";
     modify (set_timestamp current_date)) s1
  /\ (forall text s2, parse_status first s1 = (Ok text, s2) ->
        exists ok, st_outbox (poll_body w bot s).2 =
                   (st_outbox s ++ [Delivery (TELEGRAM_CHAT_ID w) text ok])%list)
  /\ (forall e s2, parse_status first s1 = (Raise e, s2) ->
        poll_body w bot s = (Raise e, s2) /\ st_outbox s2 = st_outbox s).
Proof.
  intros Hget Hcheck.
  destruct (check_response_Ok_inv _ _ _ _ Hcheck) as (d & l & -> & Hhs & Hl & _).
  inversion Hl; subst l; clear Hl.
  pose proof (get_api_answer_quiet w (timestamp s) s) as [_ Hout1].
  rewrite Hget in Hout1. simpl in Hout1.
  assert (Hbody : poll_body w bot s =
    (text ← parse_status first;
     send_message w bot text;;
     current_date ← subscript_str (VDict d) "current_date";
     modify (set_timestamp current_date)) s1).
  { unfold poll_body.
    rewrite (bind_Ok _ _ s s s) by reflexivity.
    rewrite (bind_Ok _ _ _ _ _ Hget).
    rewrite (bind_Ok _ _ _ _ _ Hcheck).
    simpl truthy. cbv iota.
    unfold method_get, dict_get. rewrite Hhs.
    unfold mbind, M_bind, mret, M_ret. simpl.
    destruct (parse_status first s1) as [[text|e] s2]; [|reflexivity].
    destruct (send_message w bot text s2) as [[[]|e] s3]; reflexivity. }
  split; [exact Hbody|]. rewrite Hbody. split.
  - intros text s2 Hparse.
    pose proof (parse_status_quiet first s1) as [_ Hout2].
    rewrite Hparse in Hout2. simpl in Hout2.
    rewrite (bind_Ok _ _ _ _ _ Hparse).
    unfold mbind at 1. unfold M_bind. rewrite send_message_run.
    destruct (w_send w (length (st_outbox s2))) as [[]|c args].
    + exists true.
      pose proof (subscript_str_quiet (VDict d) "current_date"
                    (log_delivery (Delivery (TELEGRAM_CHAT_ID w) text true) s2))
        as [_ Hout3].
      unfold mbind, M_bind.
      destruct (subscript_str (VDict d) "current_date" _) as [[cd|e] s4];
        simpl in *; rewrite Hout3; congruence.
    + exists false. simpl.
      destruct (issubclass c TelegramError); simpl; congruence.
  - intros e s2 Hparse.
    pose proof (parse_status_quiet first s1) as [_ Hout2].
    rewrite Hparse in Hout2. simpl in Hout2.
    rewrite (bind_Raise _ _ _ _ _ Hparse). split; [reflexivity|congruence].
Qed.


(** *** Raised exceptions are new objects *)

Lemma fresh_ret {A : Type} (a : A) : fresh (mret a).
Proof. intros s e s' H. discriminate. Qed.

Lemma fresh_get_state : fresh get_state.
Proof. intros s e s' H. discriminate. Qed.

Lemma fresh_modify g : fresh (modify g).
Proof. intros s e s' H. discriminate. Qed.

Lemma fresh_raise {A : Type} c args : fresh (@raise A c args).
Proof. intros s e s' H. inversion H; subst. simpl. lia. Qed.

Lemma fresh_bind {A B : Type} (m : M A) (f : A -> M B) :
  steps kept m -> fresh m -> (forall a, fresh (f a)) -> fresh (m ≫= f).
Proof.
  intros Hk Hm Hf s e s' H. unfold mbind, M_bind in H.
  specialize (Hk s). specialize (Hm s).
  destruct (m s) as [[a|e1] s1]; simpl in *.
  - destruct Hk as (_ & _ & Hle). specialize (Hf a s1 e s' H). lia.
  - inversion H; subst. now apply Hm.
Qed.

Lemma fresh_try_except {A : Type} (m : M A) c (h : exn -> M A) :
  steps kept m -> fresh m -> (forall e, fresh (h e)) -> fresh (try_except m c h).
Proof.
  intros Hk Hm Hh s e s' H. unfold try_except in H.
  specialize (Hk s). specialize (Hm s).
  destruct (m s) as [[a|e1] s1]; simpl in *; [discriminate|].
  destruct (c (exn_class_of e1)).
  - destruct Hk as (_ & _ & Hle). specialize (Hh e1 s1 e s' H). lia.
  - inversion H; subst. now apply Hm.
Qed.

Lemma requests_get_fresh w rq : fresh (requests_get w rq).
Proof.
  intros s e s' H. unfold requests_get in H.
  destruct (w_get w _); inversion H; subst. simpl. lia.
Qed.

Lemma bot_send_message_fresh w bot chat text :
  fresh (bot_send_message w bot chat text).
Proof.
  intros s e s' H. unfold bot_send_message in H.
  destruct (w_send w _); inversion H; subst. simpl. lia.
Qed.

Ltac fresh_step :=
  lazymatch goal with
  | |- fresh (mret _) => apply fresh_ret
  | |- fresh get_state => apply fresh_get_state
  | |- fresh (raise _ _) => apply fresh_raise
  | |- fresh (modify _) => apply fresh_modify
  | |- fresh (requests_get _ _) => apply requests_get_fresh
  | |- fresh (bot_send_message _ _ _ _) => apply bot_send_message_fresh
  | |- fresh (_ ≫= _) =>
      apply fresh_bind; [solve [frame]| |intros ?; cbv beta]
  | |- fresh (try_except _ _ _) =>
      apply fresh_try_except; [solve [frame]| |intros ?; cbv beta]
  | |- fresh (if ?b then _ else _) => destruct b
  | |- fresh (match ?x with _ => _ end) => destruct x
  end.

Ltac fresh_all := repeat fresh_step.

Lemma send_message_fresh w bot text : fresh (send_message w bot text).
Proof. unfold send_message. fresh_all. Qed.

Lemma poll_fetch_fresh w bot : fresh (poll_fetch w bot).
Proof.
  unfold poll_fetch, get_api_answer, check_response, parse_status, verdict_of,
    raise_for_status, response_json, load_local, method_get, subscript_int,
    subscript_str, send_message.
  fresh_all.
Qed.

Lemma start_state_marker_wf w : marker_wf (start_state w).
Proof. exact I. Qed.

(** An exception caught by the loop is never the object the marker holds:
    the handler's comparison always finds it different. *)
Lemma caught_error_differs w bot s e s1 :
  marker_wf s ->
  poll_body w bot s = (Raise e, s1) ->
  exn_ne e (error_message s1) = true.
Proof.
  intros Hwf Hbody.
  destruct (poll_body_Raise_kept _ _ _ _ _ Hbody) as (_ & Hm & _).
  apply poll_body_Raise_inv, poll_fetch_fresh in Hbody.
  rewrite Hm. unfold marker_wf in Hwf. unfold exn_ne, py_is.
  destruct (error_message s) as [v|e0]; [reflexivity|].
  rewrite bool_decide_eq_false_2; [reflexivity|lia].
Qed.

Lemma poll_handler_run w bot e s :
  exn_ne e (error_message s) = true ->
  poll_handler w bot e s =
    match send_message w bot (failure_message e) s with
    | (Ok _, s') => (Ok tt, set_error_message (OExn e) s')
    | (Raise e', s') => (Raise e', s')
    end.
Proof.
  intros Hne. unfold poll_handler, mbind, M_bind, get_state. rewrite Hne.
  unfold failure_message.
  destruct (send_message w bot _ s) as [[[]|e'] s']; reflexivity.
Qed.

Lemma iteration_marker_wf w bot s :
  marker_wf s -> marker_wf (iteration w bot s).2.
Proof.
  intros Hwf.
  destruct (poll_body w bot s) as [[[]|e] s1] eqn:Hbody.
  - rewrite (iteration_Ok _ _ _ _ Hbody).
    destruct (poll_body_Ok_inv _ _ _ _ Hbody) as (cd & s0 & Hf & ->).
    pose proof (poll_fetch_kept w bot s) as Hk. rewrite Hf in Hk.
    destruct Hk as (_ & Hm & Hle). simpl in *.
    unfold marker_wf in *. simpl. rewrite Hm.
    destruct (error_message s); [exact I|lia].
  - rewrite (iteration_caught _ _ _ _ _ Hbody). simpl.
    rewrite (poll_handler_run _ _ _ _ (caught_error_differs _ _ _ _ _ Hwf Hbody)).
    pose proof (poll_body_Raise_kept _ _ _ _ _ Hbody) as (_ & Hm & Hle).
    pose proof (poll_fetch_fresh _ _ _ _ _ (poll_body_Raise_inv _ _ _ _ _ Hbody))
      as Hfresh.
    pose proof (send_message_kept w bot (failure_message e) s1) as Hk.
    destruct (send_message w bot _ s1) as [[[]|e'] s2]; simpl in *;
      destruct Hk as (_ & Hm2 & Hle2); unfold marker_wf in *; simpl.
    + lia.
    + rewrite Hm2, Hm. destruct (error_message s); [exact I|lia].
Qed.

(** Every error caught by the loop is reported, whatever was reported on the
    iteration before: one delivery is attempted with the failure message. *)
Lemma every_caught_error_is_reported w bot s e s1 :
  marker_wf s ->
  poll_body w bot s = (Raise e, s1) ->
  exists ok,
    st_outbox (iteration w bot s).2 =
      (st_outbox s1 ++ [Delivery (TELEGRAM_CHAT_ID w) (failure_message e) ok])%list.
Proof.
  intros Hwf Hbody.
  rewrite (iteration_caught _ _ _ _ _ Hbody). simpl.
  rewrite (poll_handler_run _ _ _ _ (caught_error_differs _ _ _ _ _ Hwf Hbody)).
  rewrite send_message_run.
  destruct (w_send w (length (st_outbox s1))) as [[]|c args].
  - by exists true.
  - exists false. simpl. by destruct (issubclass c TelegramError).
Qed.

Lemma poll_loop_marker_wf w bot n s :
  marker_wf s -> marker_wf (poll_loop w bot n s).2.
Proof.
  revert s. induction n as [|n IH]; intros s Hwf; [exact Hwf|].
  simpl. unfold mbind, M_bind.
  pose proof (iteration_marker_wf w bot s Hwf) as Hit.
  destruct (iteration w bot s) as [[[]|e] s1]; simpl in *; [now apply IH|exact Hit].
Qed.

(** C1: the same error on two consecutive iterations is reported twice.  The
    handler compares the exception object with the marker and stores the
    object, and a newly raised exception is never the stored object. *)
Theorem repeated_error_notified_twice :
  st_outbox (main world_malformed 2 initial_state).2 =
    [Delivery (VStr "1001")
       "Сбой в работе программы: Структура данных не соответствует ожиданиям" true;
     Delivery (VStr "1001")
       "Сбой в работе программы: Структура данных не соответствует ожиданиям" true].
Proof. vm_compute. reflexivity. Qed.

(** C3, as stated, fails: the error caught has a description other than the
    marker's, the failure notification cannot be sent, and the marker after
    the iteration still is not that description. *)
Lemma marker_stale_after_failed_notification :
  exists e s1,
    poll_body world_muted (the_bot world_muted) (start_state world_muted)
      = (Raise e, s1) /\
    exn_str e <> description_of (error_message (start_state world_muted)) /\
    description_of
      (error_message
         (iteration world_muted (the_bot world_muted) (start_state world_muted)).2)
      <> exn_str e.
Proof.
  eexists _, _. split; [vm_compute; reflexivity|].
  split; vm_compute; discriminate.
Qed.

(** C3 (amended): when an error is caught that the handler's comparison finds
    different from the marker, the marker becomes that error if the failure
    notification is delivered; if the bot call raises instead, the exception
    with which [send_message] ends (the [CantSendMessageError] for a
    [TelegramError] of the bot, the bot's own exception otherwise) is the one
    that leaves the iteration, and the marker is the one from before. *)
Theorem marker_update_follows_delivery w bot s e s1 :
  poll_body w bot s = (Raise e, s1) ->
  exn_ne e (error_message s) = true ->
  (w_send w (length (st_outbox s1)) = Returns tt ->
     iteration w bot s =
       (Ok tt,
        add_sleep RETRY_PERIOD
          (set_error_message (OExn e)
             (log_delivery
                (Delivery (TELEGRAM_CHAT_ID w) (failure_message e) true) s1)))
     /\ error_message (iteration w bot s).2 = OExn e)
  /\ (forall c args,
        w_send w (length (st_outbox s1)) = Raises c args ->
        exists e' s2,
          send_message w bot (failure_message e) s1 = (Raise e', s2) /\
          iteration w bot s = (Raise e', add_sleep RETRY_PERIOD s2) /\
          e' = (if issubclass c TelegramError
                then cant_send
                       (alloc (log_delivery
                                 (Delivery (TELEGRAM_CHAT_ID w) (failure_message e) false)
                                 s1))
                else Exn (st_next_id s1) c args) /\
          error_message (iteration w bot s).2 = error_message s).
Proof.
  intros Hbody Hne.
  destruct (poll_body_Raise_kept _ _ _ _ _ Hbody) as (_ & Hm & _).
  rewrite <- Hm in Hne.
  rewrite (iteration_caught _ _ _ _ _ Hbody).
  rewrite (poll_handler_run _ _ _ _ Hne), send_message_run.
  split.
  - intros ->. split; reflexivity.
  - intros c args ->. simpl.
    destruct (issubclass c TelegramError); simpl;
      eexists _, _; repeat split; exact Hm.
Qed.

Lemma marker_update_follows_delivery_witness :
  error_message
    (iteration world_malformed (the_bot world_malformed)
       (start_state world_malformed)).2
    = OExn (Exn 0 TypeError [VStr "Структура данных не соответствует ожиданиям"])
  /\ (iteration world_muted (the_bot world_muted) (start_state world_muted)).1
     = Raise (Exn 2 CantSendMessageError
                [VStr "Невозможно отправить сообщение в Telegram"])
  /\ error_message
       (iteration world_muted (the_bot world_muted) (start_state world_muted)).2
     = OVal (VStr EmptyString).
Proof.
  split.
  - eapply (marker_update_follows_delivery world_malformed
              (the_bot world_malformed) (start_state world_malformed)
              (Exn 0 TypeError [VStr "Структура данных не соответствует ожиданиям"])).
    + reflexivity.
    + reflexivity.
    + reflexivity.
  - destruct (proj2 (marker_update_follows_delivery world_muted
                (the_bot world_muted) (start_state world_muted)
                (Exn 0 TypeError [VStr "Структура данных не соответствует ожиданиям"])
                (alloc (log_request (api_request world_muted (VInt 1700000000))
                          (start_state world_muted)))
                eq_refl eq_refl)
              NetworkError [VStr "Connection refused"] eq_refl)
      as (e' & s2 & _ & Hit & He' & Hm).
    split; [rewrite Hit, He'; reflexivity|exact Hm].
Defined.

(** ** Further properties of the components *)

#[global] Instance same_preorder {X : Type} (proj : state -> X) :
  PreOrder (same proj).
Proof.
  split.
  - intros s. reflexivity.
  - intros s1 s2 s3 H1 H2. unfold same in *. congruence.
Qed.

(** *** Components of the state a function does not write *)
Section Same.

Context {X : Type} (proj : state -> X).
Variable w : world.

Hypothesis proj_alloc : forall s, proj (alloc s) = proj s.

Lemma same_alloc s : same proj s (alloc s).
Proof. apply proj_alloc. Qed.

#[local] Hint Resolve same_alloc : frame.

Lemma subscript_str_same o k : steps (same proj) (subscript_str o k).
Proof. unfold subscript_str. frame. Qed.

Lemma subscript_int_same o i : steps (same proj) (subscript_int o i).
Proof. unfold subscript_int. frame. Qed.

Lemma method_get_same o k : steps (same proj) (method_get o k).
Proof. unfold method_get. frame. Qed.

Lemma check_response_same v : steps (same proj) (check_response v).
Proof. unfold check_response, subscript_str. frame. Qed.

Lemma parse_status_same hw : steps (same proj) (parse_status hw).
Proof. unfold parse_status, verdict_of, subscript_str. frame. Qed.

Hypothesis proj_log_delivery : forall d s, proj (log_delivery d s) = proj s.

Lemma send_message_same bot text : steps (same proj) (send_message w bot text).
Proof.
  intros s. rewrite send_message_run. unfold same.
  destruct (w_send w _) as [[]|c args]; simpl.
  - apply proj_log_delivery.
  - destruct (issubclass c TelegramError); simpl;
      now rewrite ?proj_alloc, proj_log_delivery.
Qed.

Hypothesis proj_set_error_message : forall o s, proj (set_error_message o s) = proj s.

Lemma poll_handler_same bot e : steps (same proj) (poll_handler w bot e).
Proof.
  pose proof send_message_same.
  assert (forall o s, same proj s (set_error_message o s))
    by (intros; apply proj_set_error_message).
  unfold poll_handler. frame.
Qed.

Hypothesis proj_set_timestamp : forall v s, proj (set_timestamp v s) = proj s.

Lemma poll_process_same bot response :
  steps (same proj) (poll_process w bot response).
Proof.
  pose proof send_message_same. pose proof check_response_same.
  pose proof parse_status_same. pose proof subscript_str_same.
  pose proof subscript_int_same. pose proof method_get_same.
  assert (forall v s, same proj s (set_timestamp v s))
    by (intros; apply proj_set_timestamp).
  unfold poll_process. frame.
Qed.

Hypothesis proj_log_request : forall rq s, proj (log_request rq s) = proj s.

Lemma get_api_answer_same ts : steps (same proj) (get_api_answer w ts).
Proof.
  assert (Hget : forall rq, steps (same proj) (requests_get w rq)).
  { intros rq s. unfold requests_get, same.
    destruct (w_get w _); simpl; now rewrite ?proj_alloc, proj_log_request. }
  unfold get_api_answer, load_local, raise_for_status, response_json. frame.
Qed.

End Same.

(** *** The notifier *)

(** X1: every call of [send_message] hands the bot the text exactly once,
    addressed to [TELEGRAM_CHAT_ID], whether the call then returns or raises;
    it returns exactly when the bot took the message. *)
Theorem send_message_one_attempt w bot text s :
  exists ok,
    st_outbox (send_message w bot text s).2 =
      (st_outbox s ++ [Delivery (TELEGRAM_CHAT_ID w) text ok])%list
    /\ if ok then (send_message w bot text s).1 = Ok tt
       else exists e, (send_message w bot text s).1 = Raise e.
Proof.
  rewrite send_message_run.
  destruct (w_send w (length (st_outbox s))) as [[]|c args].
  - exists true. split; reflexivity.
  - exists false. simpl. destruct (issubclass c TelegramError); simpl; eauto.
Qed.

(** X2: an exception leaving [send_message] is never a [TelegramError]: a
    [TelegramError] of the bot is replaced by the [CantSendMessageError] with
    the fixed text, and any other exception of the bot passes unchanged. *)
Theorem send_message_error w bot text s e s' :
  send_message w bot text s = (Raise e, s') ->
  issubclass (exn_class_of e) TelegramError = false /\
  exists c args,
    w_send w (length (st_outbox s)) = Raises c args /\
    if issubclass c TelegramError
    then exn_class_of e = CantSendMessageError /\
         exn_args e = [VStr "Невозможно отправить сообщение в Telegram"]
    else exn_class_of e = c /\ exn_args e = args.
Proof.
  rewrite send_message_run.
  destruct (w_send w (length (st_outbox s))) as [[]|c args]; [discriminate|].
  simpl. destruct (issubclass c TelegramError) eqn:Hc; intros H; inversion H; subst;
    simpl; (split; [|exists c, args; rewrite Hc]); auto.
Qed.

Lemma send_message_error_witness :
  issubclass
    (exn_class_of
       (Exn 1 CantSendMessageError [VStr "Невозможно отправить сообщение в Telegram"]))
    TelegramError = false.
Proof.
  apply (send_message_error world_muted (the_bot world_muted) "ping" initial_state
           (Exn 1 CantSendMessageError
              [VStr "Невозможно отправить сообщение в Telegram"])
           (alloc (alloc (log_delivery (Delivery (VStr "1001") "ping" false)
                            initial_state)))).
  reflexivity.
Defined.

(** *** The API client *)

Lemma get_api_answer_requests w ts s :
  st_requests (get_api_answer w ts s).2 =
    (st_requests s ++ [api_request w ts])%list.
Proof.
  unfold get_api_answer, try_except, mbind, M_bind, requests_get, api_request.
  destruct (w_get w (length (st_requests s))) as [r|c args]; simpl.
  - destruct (negb (status_code r =? HTTPStatus_OK)).
    + unfold raise_for_status.
      destruct ((400 <=? status_code r) && (status_code r <? 500)); [reflexivity|].
      destruct ((500 <=? status_code r) && (status_code r <? 600)); [reflexivity|].
      simpl. unfold response_json. destruct (json r); reflexivity.
    + simpl. unfold response_json. destruct (json r); reflexivity.
  - destruct (issubclass c RequestException); reflexivity.
Qed.

(** X3: every call of [get_api_answer] makes exactly one request, to
    [ENDPOINT], with the [Authorization] header and the cursor as [from_date],
    however the call ends. *)
Theorem get_api_answer_one_request w ts s :
  st_requests (get_api_answer w ts s).2 =
    (st_requests s ++ [api_request w ts])%list.
Proof.
  unfold get_api_answer, try_except, mbind, M_bind, requests_get, api_request.
  destruct (w_get w (length (st_requests s))) as [r|c args]; simpl.
  - destruct (negb (status_code r =? HTTPStatus_OK)).
    + unfold raise_for_status.
      destruct ((400 <=? status_code r) && (status_code r <? 500)); [reflexivity|].
      destruct ((500 <=? status_code r) && (status_code r <? 600)); [reflexivity|].
      simpl. unfold response_json. destruct (json r); reflexivity.
    + simpl. unfold response_json. destruct (json r); reflexivity.
  - destruct (issubclass c RequestException); reflexivity.
Qed.

(** X4: a response with a status from 400 to 599 makes [get_api_answer]
    raise the [HTTPError] of [raise_for_status], whose text carries the
    status, the reason and the URL; the body is not decoded. *)
Theorem get_api_answer_http_error w ts s r :
  w_get w (length (st_requests s)) = Returns r ->
  is_http_error (status_code r) = true ->
  get_api_answer w ts s =
    (Raise (Exn (st_next_id s) HTTPError [VStr (http_error_line r)]),
     alloc (log_request (api_request w ts) s)).
Proof.
  intros Hget Herr. unfold is_http_error in Herr.
  apply andb_true_iff in Herr as [Hlo Hhi].
  apply Z.leb_le in Hlo. apply Z.ltb_lt in Hhi.
  unfold get_api_answer.
  rewrite (bind_Ok _ _ s r (log_request (api_request w ts) s)).
  2:{ apply try_except_Ok. unfold requests_get. now rewrite Hget. }
  assert (Hne : negb (status_code r =? HTTPStatus_OK) = true).
  { apply negb_true_iff, Z.eqb_neq. unfold HTTPStatus_OK. lia. }
  rewrite Hne. erewrite bind_Raise; [reflexivity|].
  unfold raise_for_status, http_error_line.
  destruct (status_code r <? 500) eqn:H5.
  - rewrite (proj2 (Z.leb_le 400 _) Hlo). reflexivity.
  - rewrite andb_false_r. apply Z.ltb_ge in H5.
    rewrite (proj2 (Z.leb_le 500 _) H5), (proj2 (Z.ltb_lt _ 600) Hhi). reflexivity.
Qed.

Lemma get_api_answer_http_error_witness :
  get_api_answer world_not_found (VInt 1700000000) initial_state =
    (Raise (Exn 0 HTTPError
       [VStr "404 Client Error: Not Found for url: https://practicum.yandex.ru/api/"]),
     alloc (log_request (api_request world_not_found (VInt 1700000000)) initial_state)).
Proof.
  apply (get_api_answer_http_error world_not_found (VInt 1700000000) initial_state
           (Response 404 "https://practicum.yandex.ru/api/" "Not Found"
              (Returns (VDict [("code", VStr "not_found")]))));
    reflexivity.
Defined.

(** X5: for every status outside 400..599, 200 or not, [get_api_answer]
    ends as [response.json()] does: it returns the decoded body, or raises
    what the decoding raises.  A status such as 204 or 301 is no error. *)
Theorem get_api_answer_no_http_error w ts s r :
  w_get w (length (st_requests s)) = Returns r ->
  is_http_error (status_code r) = false ->
  get_api_answer w ts s =
    match json r with
    | Returns v => (Ok v, log_request (api_request w ts) s)
    | Raises c args =>
        (Raise (Exn (st_next_id s) c args), alloc (log_request (api_request w ts) s))
    end.
Proof.
  intros Hget Herr. unfold is_http_error in Herr.
  unfold get_api_answer.
  rewrite (bind_Ok _ _ s r (log_request (api_request w ts) s)).
  2:{ apply try_except_Ok. unfold requests_get. now rewrite Hget. }
  rewrite (bind_Ok _ _ _ tt (log_request (api_request w ts) s)).
  - unfold response_json. destruct (json r); reflexivity.
  - destruct (negb (status_code r =? HTTPStatus_OK)); [|reflexivity].
    unfold raise_for_status.
    destruct (400 <=? status_code r) eqn:Hlo; simpl in *.
    + rewrite Herr.
      assert ((status_code r <? 500) = false) as ->.
      { apply Z.ltb_ge. apply Z.ltb_ge in Herr. lia. }
      rewrite andb_false_r. reflexivity.
    + assert ((500 <=? status_code r) = false) as ->.
      { apply Z.leb_gt. apply Z.leb_gt in Hlo. lia. }
      reflexivity.
Qed.

Lemma get_api_answer_no_http_error_witness :
  get_api_answer world_no_content (VInt 1700000000) initial_state =
    (Ok (VDict [("homeworks", VList []); ("current_date", VInt 1700000100)]),
     log_request (api_request world_no_content (VInt 1700000000)) initial_state).
Proof.
  apply (get_api_answer_no_http_error world_no_content (VInt 1700000000)
           initial_state
           (Response 204 EmptyString "No Content"
              (Returns (VDict [("homeworks", VList []);
                               ("current_date", VInt 1700000100)]))));
    reflexivity.
Defined.

(** *** The response validator *)

(** X6: [check_response] accepts exactly the mappings that hold a list under
    [homeworks], and returns that list without changing anything; every other
    input, mapping or not, makes it raise the [TypeError] with the fixed
    text. *)
Theorem check_response_cases v s :
  (exists d l, v = VDict d /\ dict_lookup d "homeworks" = Some (VList l) /\
               check_response v s = (Ok (VList l), s))
  \/ ((forall d l, v = VDict d -> dict_lookup d "homeworks" <> Some (VList l)) /\
      check_response v s = (Raise (malformed_error s), alloc s)).
Proof.
  destruct v as [| | | | | |d];
    try (right; split; [intros ? ? Hv; discriminate|reflexivity]).
  destruct (dict_lookup d "homeworks") as [hs|] eqn:E.
  - destruct hs as [| | | | |l|];
      try (right; split;
           [intros d' l' Hv; inversion Hv; subst; rewrite E; discriminate
           |apply check_response_rejects; intros d' l' Hv; inversion Hv; subst;
            rewrite E; discriminate]).
    left. exists d, l. repeat split; [exact E|now apply check_response_accepts].
  - right. split.
    + intros d' l' Hv. inversion Hv; subst. rewrite E. discriminate.
    + apply check_response_rejects. intros d' l' Hv. inversion Hv; subst.
      rewrite E. discriminate.
Qed.

(** *** The status translator *)

Lemma parse_status_missing_field d s :
  dict_lookup d "homework_name" = None \/ dict_lookup d "status" = None ->
  exists e, parse_status (VDict d) s = (Raise e, alloc (alloc s)).
Proof.
  intros Habsent. unfold parse_status, subscript_str.
  destruct (dict_lookup d "homework_name") as [name|] eqn:En.
  - destruct Habsent as [?|Hs]; [discriminate|]. rewrite Hs.
    eexists. erewrite bind_Raise; [reflexivity|].
    erewrite try_except_caught; cycle 1.
    { rewrite (bind_Ok _ _ s name s) by reflexivity.
      apply bind_Raise. reflexivity. }
    { reflexivity. }
    reflexivity.
  - eexists. erewrite bind_Raise; [reflexivity|].
    erewrite try_except_caught; cycle 1.
    { apply bind_Raise. reflexivity. }
    { reflexivity. }
    reflexivity.
Qed.

Lemma parse_status_non_dict_raises hw s :
  (forall d, hw <> VDict d) ->
  exists e s', parse_status hw s = (Raise e, s').
Proof.
  intros Hnd.
  destruct hw as [| | | | | |d]; try (eexists _, _; reflexivity).
  now destruct (Hnd d).
Qed.

(** X7: [parse_status] returns a message only for a mapping that has both
    fields and whose status is a [str] of the verdict table; the message is
    then the sentence for that name and verdict, and nothing was raised on
    the way. *)
Theorem parse_status_Ok_inv hw s text s' :
  parse_status hw s = (Ok text, s') ->
  exists d name k verdict,
    hw = VDict d /\
    dict_lookup d "homework_name" = Some name /\
    dict_lookup d "status" = Some (VStr k) /\
    dict_lookup HOMEWORK_VERDICTS k = Some verdict /\
    text = status_sentence name verdict /\ s' = s.
Proof.
  intros H.
  destruct hw as [| | | | | |d];
    try (match type of H with
         | parse_status ?v _ = _ =>
             destruct (parse_status_non_dict_raises v s ltac:(discriminate))
               as (? & ? & He)
         end; rewrite He in H; discriminate).
  destruct (dict_lookup d "homework_name") as [name|] eqn:En.
  2:{ destruct (parse_status_missing_field d s (or_introl En)) as [e He].
      rewrite He in H. discriminate. }
  destruct (dict_lookup d "status") as [status|] eqn:Es.
  2:{ destruct (parse_status_missing_field d s (or_intror Es)) as [e He].
      rewrite He in H. discriminate. }
  rewrite (parse_status_fields d name status) in H by done.
  unfold try_except, mbind, M_bind, verdict_of in H.
  destruct status as [| | | |k| |]; try discriminate.
  simpl hashable in H. cbv iota in H.
  destruct (dict_lookup HOMEWORK_VERDICTS k) as [verdict|] eqn:Ev; [|discriminate].
  inversion H; subst. by exists d, name, k, verdict.
Qed.

Lemma parse_status_Ok_inv_witness :
  exists d name k verdict,
    VDict [("status", VStr "reviewing"); ("homework_name", VInt 12)] = VDict d /\
    dict_lookup d "homework_name" = Some name /\
    dict_lookup d "status" = Some (VStr k) /\
    dict_lookup HOMEWORK_VERDICTS k = Some verdict /\
    status_sentence (VInt 12) "Работа взята на проверку ревьюером."
      = status_sentence name verdict /\
    initial_state = initial_state.
Proof.
  apply (parse_status_Ok_inv
           (VDict [("status", VStr "reviewing"); ("homework_name", VInt 12)])
           initial_state
           (status_sentence (VInt 12) "Работа взята на проверку ревьюером.")
           initial_state).
  reflexivity.
Defined.

(** X8: a homework entry that is not a mapping (a string, a number, a list,
    [None]) makes [parse_status] raise [TypeError], which none of its handlers
    catches; it is not reported as [NoHomeworkDetectedError]. *)
Theorem parse_status_not_a_mapping hw s :
  (forall d, hw <> VDict d) ->
  exists text,
    parse_status hw s = (Raise (Exn (st_next_id s) TypeError [VStr text]), alloc s).
Proof.
  intros Hnd.
  destruct hw as [| | | | | |d]; try (eexists; reflexivity).
  now destruct (Hnd d).
Qed.

Lemma parse_status_not_a_mapping_witness :
  exists text,
    parse_status (VStr "hw1") initial_state =
      (Raise (Exn 0 TypeError [VStr text]), alloc initial_state).
Proof.
  apply (parse_status_not_a_mapping (VStr "hw1") initial_state).
  intros d. discriminate.
Defined.

Lemma parse_status_unhashable_status_witness :
  parse_status (VDict [("homework_name", VStr "hw1"); ("status", VList [VStr "approved"])])
    initial_state =
    (Raise (Exn 0 TypeError [VStr "unhashable type: 'list'"]), alloc initial_state).
Proof.
  apply (parse_status_unhashable_status
           [("homework_name", VStr "hw1"); ("status", VList [VStr "approved"])]
           (VStr "hw1") (VList [VStr "approved"]) initial_state); reflexivity.
Defined.

(** ** Further properties of the poll loop *)

Lemma poll_body_unfold w bot s :
  poll_body w bot s = (get_api_answer w (timestamp s) ≫= poll_process w bot) s.
Proof. reflexivity. Qed.

Lemma iteration_unfold w bot s :
  iteration w bot s =
    ((try_except (poll_body w bot) is_Exception (poll_handler w bot) s).1,
     add_sleep RETRY_PERIOD
       (try_except (poll_body w bot) is_Exception (poll_handler w bot) s).2).
Proof.
  unfold iteration, try_finally.
  destruct (try_except _ _ _ s) as [r s1]. reflexivity.
Qed.

(** The [try] block with its handler writes [proj] nowhere, if nothing in
    them does. *)
Lemma guarded_body_same {X : Type} (proj : state -> X) w bot :
  (forall s, proj (alloc s) = proj s) ->
  (forall d s, proj (log_delivery d s) = proj s) ->
  (forall o s, proj (set_error_message o s) = proj s) ->
  (forall v s, proj (set_timestamp v s) = proj s) ->
  (forall rq s, proj (log_request rq s) = proj s) ->
  steps (same proj) (try_except (poll_body w bot) is_Exception (poll_handler w bot)).
Proof.
  intros Ha Hd He Ht Hr.
  apply steps_try_except; [exact _| |].
  - intros s. rewrite poll_body_unfold. revert s.
    apply steps_bind; [exact _| |].
    + intros s. now apply get_api_answer_same.
    + intros response. now apply poll_process_same.
  - intros e. now apply poll_handler_same.
Qed.

(** X10: every iteration sleeps [RETRY_PERIOD] = 600 seconds exactly once,
    whether the [try] block returned, the handler dealt with its error, or
    the handler itself raised. *)
Theorem iteration_sleeps w bot s :
  st_slept (iteration w bot s).2 = st_slept s + 600.
Proof.
  rewrite iteration_unfold. simpl. f_equal.
  now apply (guarded_body_same st_slept w bot).
Qed.

Lemma guarded_body_requests w bot s :
  st_requests (try_except (poll_body w bot) is_Exception (poll_handler w bot) s).2 =
    (st_requests s ++ [api_request w (timestamp s)])%list.
Proof.
  rewrite <- (get_api_answer_requests w (timestamp s) s).
  unfold try_except. rewrite poll_body_unfold. unfold mbind, M_bind.
  destruct (get_api_answer w (timestamp s) s) as [[response|e] s1]; simpl.
  - pose proof (poll_process_same st_requests w ltac:(done) ltac:(done) ltac:(done)
                  bot response s1) as Hp.
    unfold same in Hp.
    destruct (poll_process w bot response s1) as [[[]|e] s2]; simpl in *; [exact Hp|].
    rewrite <- Hp.
    now apply (poll_handler_same st_requests w).
  - now apply (poll_handler_same st_requests w).
Qed.

(** X11: every iteration makes exactly one request, and its [from_date] is
    the cursor the iteration started with. *)
Theorem iteration_one_request w bot s :
  st_requests (iteration w bot s).2 =
    (st_requests s ++ [api_request w (timestamp s)])%list.
Proof.
  rewrite iteration_unfold. cbn [snd].
  rewrite <- (get_api_answer_requests w (timestamp s) s).
  unfold try_except. rewrite poll_body_unfold. unfold mbind, M_bind.
  destruct (get_api_answer w (timestamp s) s) as [[response|e] s1]; simpl.
  - pose proof (poll_process_same st_requests w ltac:(done) ltac:(done) ltac:(done)
                  bot response s1) as Hp.
    unfold same in Hp.
    destruct (poll_process w bot response s1) as [[[]|e] s2]; simpl in *; [exact Hp|].
    rewrite <- Hp.
    now apply (poll_handler_same st_requests w).
  - now apply (poll_handler_same st_requests w).
Qed.

(** How an iteration can end with an exception: only through the handler's
    own [send_message]. *)
Lemma iteration_Raise_send w bot s e :
  (iteration w bot s).1 = Raise e ->
  exists e0 s1,
    poll_body w bot s = (Raise e0, s1) /\
    exn_ne e0 (error_message s1) = true /\
    (send_message w bot (failure_message e0) s1).1 = Raise e /\
    (iteration w bot s).2 =
      add_sleep RETRY_PERIOD (send_message w bot (failure_message e0) s1).2.
Proof.
  destruct (poll_body w bot s) as [[[]|e0] s1] eqn:Hbody.
  - rewrite (iteration_Ok _ _ _ _ Hbody). discriminate.
  - rewrite (iteration_caught _ _ _ _ _ Hbody). simpl.
    destruct (exn_ne e0 (error_message s1)) eqn:Hne.
    + rewrite (poll_handler_run _ _ _ _ Hne).
      destruct (send_message w bot (failure_message e0) s1) as [[[]|e'] s2] eqn:Hs;
        simpl; [discriminate|].
      intros H. inversion H; subst. exists e0, s1. by rewrite Hs.
    + unfold poll_handler, mbind, M_bind, get_state. rewrite Hne. discriminate.
Qed.

(** X12: an exception leaves an iteration only when an error was caught and
    the notification of that error could not be sent; it is the exception of
    that [send_message].  The sleep has happened all the same, and neither the
    cursor nor the marker has changed. *)
Theorem iteration_Raise_inv w bot s e s' :
  iteration w bot s = (Raise e, s') ->
  (exists e0 s1 s2,
     poll_body w bot s = (Raise e0, s1) /\
     send_message w bot (failure_message e0) s1 = (Raise e, s2) /\
     s' = add_sleep RETRY_PERIOD s2) /\
  timestamp s' = timestamp s /\ error_message s' = error_message s.
Proof.
  intros Hit.
  destruct (iteration_Raise_send w bot s e) as (e0 & s1 & Hbody & _ & Hsend & Hst).
  { now rewrite Hit. }
  rewrite Hit in Hst. simpl in Hst.
  pose proof (poll_body_Raise_kept _ _ _ _ _ Hbody) as (Ht1 & Hm1 & _).
  pose proof (send_message_kept w bot (failure_message e0) s1) as (Ht2 & Hm2 & _).
  destruct (send_message w bot (failure_message e0) s1) as [r s2] eqn:Hs.
  simpl in *. subst r s'. split; [by exists e0, s1, s2|].
  simpl. split; congruence.
Qed.

Lemma iteration_Raise_inv_witness :
  timestamp
    (iteration world_muted (the_bot world_muted) (start_state world_muted)).2
    = VInt 1700000000.
Proof.
  eapply (iteration_Raise_inv world_muted (the_bot world_muted)
            (start_state world_muted)).
  reflexivity.
Defined.

(** X13: while the bot takes every message, no iteration raises: the loop
    runs any number of turns, having slept 600 seconds and made one request
    per turn. *)
Theorem poll_loop_survives w bot n s :
  (forall k, w_send w k = Returns tt) ->
  exists s',
    poll_loop w bot n s = (Ok tt, s') /\
    st_slept s' = st_slept s + 600 * Z.of_nat n /\
    length (st_requests s') = (length (st_requests s) + n)%nat.
Proof.
  intros Hsend. revert s. induction n as [|n IH]; intros s.
  - exists s. simpl. repeat split; lia.
  - destruct (iteration w bot s) as [[[]|e] s1] eqn:Hit.
    + destruct (IH s1) as (s' & Hloop & Hsl & Hrq).
      exists s'. split.
      { simpl. now rewrite (bind_Ok _ _ _ _ _ Hit). }
      assert (Hs1 : st_slept s1 = st_slept s + 600).
      { pose proof (iteration_unfold w bot s) as Hu. rewrite Hit in Hu.
        inversion Hu as [[Hr Hst]]. simpl. f_equal.
        now apply (guarded_body_same st_slept w bot). }
      assert (Hr1 : st_requests s1 =
                    (st_requests s ++ [api_request w (timestamp s)])%list).
      { pose proof (iteration_unfold w bot s) as Hu. rewrite Hit in Hu.
        inversion Hu as [[Hr Hst]]. simpl. apply guarded_body_requests. }
      rewrite Hr1, length_app in Hrq. simpl in Hrq. split; lia.
    + destruct (iteration_Raise_send w bot s e) as (e0 & s0 & _ & _ & Hs & _).
      { now rewrite Hit. }
      rewrite send_message_run, Hsend in Hs. discriminate.
Qed.

Lemma poll_loop_survives_witness :
  exists s',
    poll_loop world_malformed (the_bot world_malformed) 3 (start_state world_malformed)
      = (Ok tt, s') /\
    st_slept s' = st_slept (start_state world_malformed) + 600 * Z.of_nat 3 /\
    length (st_requests s') =
      (length (st_requests (start_state world_malformed)) + 3)%nat.
Proof.
  apply (poll_loop_survives world_malformed (the_bot world_malformed) 3
           (start_state world_malformed)).
  intros k. reflexivity.
Defined.

(** X14: a response that is not a mapping with a list under [homeworks] is
    not translated: the iteration hands the bot one message, the failure
    notification with the text of the validator's [TypeError], and leaves the
    cursor where it was. *)
Theorem iteration_malformed_response w bot s response s1 :
  marker_wf s ->
  get_api_answer w (timestamp s) s = (Ok response, s1) ->
  (forall d l, response = VDict d -> dict_lookup d "homeworks" <> Some (VList l)) ->
  (exists ok,
     st_outbox (iteration w bot s).2 =
       (st_outbox s ++
        [Delivery (TELEGRAM_CHAT_ID w)
           "Сбой в работе программы: Структура данных не соответствует ожиданиям"
           ok])%list)
  /\ timestamp (iteration w bot s).2 = timestamp s.
Proof.
  intros Hwf Hget Hbad.
  assert (Hbody : poll_body w bot s = (Raise (malformed_error s1), alloc s1)).
  { rewrite poll_body_unfold. rewrite (bind_Ok _ _ _ _ _ Hget).
    unfold poll_process. apply bind_Raise. now apply check_response_rejects. }
  pose proof (get_api_answer_quiet w (timestamp s) s) as [_ Hout].
  rewrite Hget in Hout. simpl in Hout.
  split.
  - destruct (every_caught_error_is_reported _ _ _ _ _ Hwf Hbody) as [ok Hrep].
    exists ok. rewrite Hrep. simpl. now rewrite Hout.
  - rewrite (iteration_caught _ _ _ _ _ Hbody). simpl.
    rewrite poll_handler_cursor.
    now destruct (poll_body_Raise_kept _ _ _ _ _ Hbody) as [Hts _].
Qed.

Lemma iteration_malformed_response_witness :
  timestamp
    (iteration world_malformed (the_bot world_malformed)
       (start_state world_malformed)).2 = VInt 1700000000.
Proof.
  eapply (iteration_malformed_response world_malformed (the_bot world_malformed)
            (start_state world_malformed) (VList [])).
  - exact I.
  - reflexivity.
  - intros d l Hv. discriminate.
Defined.

(** X15: when the response holds a first homework that translates, the bot
    takes the message and the response has a [current_date], the iteration
    ends normally with that one message delivered and the cursor set to
    [current_date], whatever kind of value that is. *)
Theorem iteration_notifies_and_advances w bot s d first rest text cd s1 :
  get_api_answer w (timestamp s) s = (Ok (VDict d), s1) ->
  dict_lookup d "homeworks" = Some (VList (first :: rest)) ->
  parse_status first s1 = (Ok text, s1) ->
  w_send w (length (st_outbox s1)) = Returns tt ->
  dict_lookup d "current_date" = Some cd ->
  iteration w bot s =
    (Ok tt,
     add_sleep RETRY_PERIOD
       (set_timestamp cd
          (log_delivery (Delivery (TELEGRAM_CHAT_ID w) text true) s1))).
Proof.
  intros Hget Hhs Hparse Hsend Hcd.
  apply iteration_Ok. rewrite poll_body_unfold, (bind_Ok _ _ _ _ _ Hget).
  unfold poll_process.
  rewrite (bind_Ok _ _ _ _ _ (check_response_accepts d _ s1 Hhs)).
  simpl truthy. cbv iota.
  rewrite (bind_Ok _ _ s1 tt
             (log_delivery (Delivery (TELEGRAM_CHAT_ID w) text true) s1)).
  - unfold subscript_str. rewrite Hcd. reflexivity.
  - unfold method_get, dict_get. rewrite Hhs.
    rewrite (bind_Ok _ _ s1 (VList (first :: rest)) s1) by reflexivity.
    rewrite (bind_Ok _ _ s1 first s1) by reflexivity.
    rewrite (bind_Ok _ _ _ _ _ Hparse).
    rewrite send_message_run, Hsend. reflexivity.
Qed.

Lemma iteration_notifies_and_advances_witness :
  iteration world_two_homeworks (the_bot world_two_homeworks)
    (start_state world_two_homeworks) =
    (Ok tt,
     add_sleep RETRY_PERIOD
       (set_timestamp (VInt 1700000100)
          (log_delivery
             (Delivery (VStr "1001")
                (status_sentence (VStr "hw2") "Работа взята на проверку ревьюером.")
                true)
             (log_request (api_request world_two_homeworks (VInt 1700000000))
                (start_state world_two_homeworks))))).
Proof.
  eapply (iteration_notifies_and_advances world_two_homeworks
            (the_bot world_two_homeworks) (start_state world_two_homeworks)
            _ _ _ _ _ _); reflexivity.
Defined.

(** X16: in the loop that [main] enters, at every turn, an error caught is
    reported: one delivery of the failure message is attempted, also when
    the turn before reported an error with the same text. *)
Theorem reported_at_every_turn w n e s1 :
  poll_body w (the_bot w) (poll_loop w (the_bot w) n (start_state w)).2
    = (Raise e, s1) ->
  exists ok,
    st_outbox (iteration w (the_bot w)
                 (poll_loop w (the_bot w) n (start_state w)).2).2 =
      (st_outbox s1 ++ [Delivery (TELEGRAM_CHAT_ID w) (failure_message e) ok])%list.
Proof.
  intros Hbody. eapply every_caught_error_is_reported; [|exact Hbody].
  apply poll_loop_marker_wf, start_state_marker_wf.
Qed.

Lemma reported_at_every_turn_witness :
  exists ok,
    st_outbox (iteration world_malformed (the_bot world_malformed)
                 (poll_loop world_malformed (the_bot world_malformed) 1
                    (start_state world_malformed)).2).2 =
      (st_outbox (alloc (log_request (api_request world_malformed (VInt 1700000000))
                   (poll_loop world_malformed (the_bot world_malformed) 1
                      (start_state world_malformed)).2))
       ++ [Delivery (TELEGRAM_CHAT_ID world_malformed)
             (failure_message
                (Exn 1 TypeError [VStr "Структура данных не соответствует ожиданиям"]))
             ok])%list.
Proof.
  apply (reported_at_every_turn world_malformed 1).
  reflexivity.
Defined.

(** *** Only the first homework of a response *)

(** A failure notification is never the sentence of a status change. *)
Lemma failure_message_not_sentence e name verdict :
  failure_message e <> status_sentence name verdict.
Proof.
  unfold failure_message, status_sentence. intros H.
  apply (f_equal (fun t => String.get 1 t)) in H. discriminate H.
Qed.

(** What the handler hands to the bot: nothing, or one failure
    notification. *)
Lemma poll_handler_outbox w bot e s :
  exists reports,
    st_outbox (poll_handler w bot e s).2 = (st_outbox s ++ reports)%list /\
    Forall (is_failure_report w) reports /\
    (length reports <= 1)%nat.
Proof.
  destruct (exn_ne e (error_message s)) eqn:Hne.
  - rewrite (poll_handler_run _ _ _ _ Hne), send_message_run.
    assert (Hrep : forall ok,
      Forall (is_failure_report w)
        [Delivery (TELEGRAM_CHAT_ID w) (failure_message e) ok]).
    { intros ok. repeat constructor. by exists e. }
    destruct (w_send w (length (st_outbox s))) as [[]|c args].
    + exists [Delivery (TELEGRAM_CHAT_ID w) (failure_message e) true].
      simpl. auto.
    + exists [Delivery (TELEGRAM_CHAT_ID w) (failure_message e) false].
      simpl. destruct (issubclass c TelegramError); simpl; auto.
  - exists []. unfold poll_handler, mbind, M_bind, get_state. rewrite Hne.
    simpl. rewrite app_nil_r. auto.
Qed.

(** What an iteration hands to the bot, from what its [try] block did. *)
Lemma iteration_outbox w bot s :
  exists reports,
    st_outbox (iteration w bot s).2 =
      (st_outbox (poll_body w bot s).2 ++ reports)%list /\
    Forall (is_failure_report w) reports /\
    (length reports <= 1)%nat.
Proof.
  destruct (poll_body w bot s) as [[[]|e] s1] eqn:Hbody.
  - rewrite (iteration_Ok _ _ _ _ Hbody). exists []. simpl.
    rewrite app_nil_r. auto.
  - rewrite (iteration_caught _ _ _ _ _ Hbody). simpl.
    apply poll_handler_outbox.
Qed.

(** C8: in an iteration whose validated response holds one or more homework
    records, only the first record is translated and notified.  The whole
    iteration, handler and sleep included, is the turn on the first record
    and the response's [current_date]; what it hands to the bot is the
    translation of the first record, if that record translates, followed by
    at most one failure notification, which is no status sentence. *)
Theorem iteration_first_homework_only w bot s response first rest s1 :
  get_api_answer w (timestamp s) s = (Ok response, s1) ->
  check_response response s1 = (Ok (VList (first :: rest)), s1) ->
  (exists d,
     response = VDict d /\
     iteration w bot s =
       turn_on_first w bot first (dict_lookup d "current_date") s1)
  /\ (forall text s2, parse_status first s1 = (Ok text, s2) ->
        exists ok reports,
          st_outbox (iteration w bot s).2 =
            (st_outbox s ++ Delivery (TELEGRAM_CHAT_ID w) text ok :: reports)%list /\
          Forall (is_failure_report w) reports /\
          Forall (fun dl => forall name verdict,
                    dl_text dl <> status_sentence name verdict) reports /\
          (length reports <= 1)%nat)
  /\ (forall e s2, parse_status first s1 = (Raise e, s2) ->
        exists reports,
          st_outbox (iteration w bot s).2 = (st_outbox s ++ reports)%list /\
          Forall (is_failure_report w) reports /\
          Forall (fun dl => forall name verdict,
                    dl_text dl <> status_sentence name verdict) reports /\
          (length reports <= 1)%nat).
Proof.
  intros Hget Hcheck.
  destruct (poll_body_first_homework_only w bot s response first rest s1 Hget Hcheck)
    as (Hbody & Hok & Hraise).
  destruct (check_response_Ok_inv _ _ _ _ Hcheck) as (d & l & -> & _ & _ & _).
  assert (Hno : forall reports,
    Forall (is_failure_report w) reports ->
    Forall (fun dl => forall name verdict,
              dl_text dl <> status_sentence name verdict) reports).
  { intros reports Hf. eapply Forall_impl; [exact Hf|].
    intros dl (e & _ & ->) name verdict. apply failure_message_not_sentence. }
  destruct (iteration_outbox w bot s) as (reports & Hout & Hrep & Hlen).
  split; [|split].
  - exists d. split; [reflexivity|].
    unfold iteration, turn_on_first, try_finally, try_except.
    rewrite Hbody. reflexivity.
  - intros text s2 Hparse.
    destruct (Hok text s2 Hparse) as [ok Hbox].
    exists ok, reports. rewrite Hout, Hbox, <- app_assoc. simpl. auto.
  - intros e s2 Hparse.
    destruct (Hraise e s2 Hparse) as [Hb Hbox].
    exists reports. rewrite Hout, Hb. simpl. rewrite Hbox. auto.
Qed.

Lemma iteration_first_homework_only_witness :
  exists ok reports,
    st_outbox (iteration world_two_homeworks_muted (the_bot world_two_homeworks_muted)
                 (start_state world_two_homeworks_muted)).2 =
      (st_outbox (start_state world_two_homeworks_muted) ++
       Delivery (TELEGRAM_CHAT_ID world_two_homeworks_muted)
         (status_sentence (VStr "hw2") "Работа взята на проверку ревьюером.") ok
       :: reports)%list /\
    Forall (is_failure_report world_two_homeworks_muted) reports /\
    Forall (fun dl => forall name verdict,
              dl_text dl <> status_sentence name verdict) reports /\
    (length reports <= 1)%nat.
Proof.
  eapply (proj1 (proj2 (iteration_first_homework_only world_two_homeworks_muted
            (the_bot world_two_homeworks_muted)
            (start_state world_two_homeworks_muted)
            _ _ _ _ eq_refl eq_refl))).
  reflexivity.
Defined.

(** With two homeworks in the response and a bot that cannot deliver, the
    iteration attempts the translation of the first homework and then the
    failure notification; the second homework appears nowhere. *)
Lemma iteration_two_homeworks_muted :
  st_outbox (iteration world_two_homeworks_muted (the_bot world_two_homeworks_muted)
               (start_state world_two_homeworks_muted)).2 =
    [Delivery (VStr "1001")
       (status_sentence (VStr "hw2") "Работа взята на проверку ревьюером.") false;
     Delivery (VStr "1001")
       "Сбой в работе программы: Невозможно отправить сообщение в Telegram" false].
Proof. vm_compute. reflexivity. Qed.
